(** * api-doc-gen-python: the packaging manifest [python/setup.py]

    The repository's only source file is a setuptools manifest.  Running it
    evaluates the keyword arguments of one [setup(...)] call, top to bottom:
    string and list literals, [open("README.md").read()] and
    [find_packages(where="python")].  This development embeds

    - the build tree the script runs in (a directory tree of byte files),
    - the two library calls the arguments make (text-mode [open]/[read] and
      setuptools' package finder),
    - the script itself, as the function [setup_py] from a build environment
      to the keyword arguments that reach [setup], or to the exception raised
      on the way,
    - the small grammars the packaging tools read the declared strings with
      (requirement strings, version specifiers, entry points, classifiers),
    - the syntax tree of the file, for the statements about what the source
      does and does not define.

    The import [from setuptools import setup, find_packages] is taken to
    succeed (the script is run by a build front end that provides
    setuptools), and [setup] is the boundary: what it does with its arguments
    is library code. *)

From Stdlib Require Import List Strings.String Strings.Ascii Strings.Byte.
From Stdlib Require Import Bool Arith NArith Lia DecimalString.
Import ListNotations.
Open Scope string_scope.
Open Scope list_scope.
Set Warnings "-register-all".

(* ================================================================== *)
(** ** Results of evaluating Python expressions *)

Module Py.

(** The exceptions that the expressions of the manifest raise in the
    situations modelled here; the operating system and the interpreter
    have more. *)
Inductive exn : Type :=
| FileNotFoundError
| IsADirectoryError
| PermissionError
| OSError              (* another operating-system error, such as ELOOP *)
| UnicodeDecodeError
| RecursionError.

Inductive result (A : Type) : Type :=
| Ok (a : A)
| Raise (e : exn).
Arguments Ok {A} a.
Arguments Raise {A} e.

Definition bind {A B : Type} (r : result A) (k : A -> result B) : result B :=
  match r with
  | Ok a => k a
  | Raise e => Raise e
  end.

Definition succeeds {A : Type} (r : result A) : bool :=
  match r with Ok _ => true | Raise _ => false end.

(** A Python [str] is a sequence of Unicode code points; it is represented
    here by its UTF-8 encoding, so that the ASCII literals of the source are
    the strings as written. *)
Definition str : Type := string.

End Py.

Notation "x <- r ;; k" := (Py.bind r (fun x => k))
  (at level 61, r at next level, right associativity).

(* ================================================================== *)
(** ** String operations of the Python runtime and the packaging tools *)

Module Str.

(** [s.endswith(suffix)] *)
Fixpoint has_suffix (suffix s : string) : bool :=
  String.eqb suffix s
  || match s with
     | EmptyString => false
     | String _ r => has_suffix suffix r
     end.

(** [s.split(sep)] for a one-character separator. *)
Fixpoint split_aux (sep : ascii) (acc : string) (s : string) : list string :=
  match s with
  | EmptyString => [acc]
  | String c r =>
      if Ascii.eqb c sep then acc :: split_aux sep "" r
      else split_aux sep (String.append acc (String c "")) r
  end.
Definition split_on (sep : ascii) (s : string) : list string :=
  split_aux sep "" s.

Fixpoint mem (c : ascii) (s : string) : bool :=
  match s with
  | EmptyString => false
  | String d r => Ascii.eqb d c || mem c r
  end.

(** The longest prefix whose characters satisfy [f], and the rest. *)
Fixpoint span (f : ascii -> bool) (s : string) : string * string :=
  match s with
  | EmptyString => ("", "")
  | String c r =>
      if f c then let (a, b) := span f r in (String c a, b)
      else ("", s)
  end.

Fixpoint forallb (f : ascii -> bool) (s : string) : bool :=
  match s with
  | EmptyString => true
  | String c r => f c && forallb f r
  end.

Fixpoint strip_prefix (p s : string) : option string :=
  match p, s with
  | EmptyString, _ => Some s
  | String a p', String b s' =>
      if Ascii.eqb a b then strip_prefix p' s' else None
  | String _ _, EmptyString => None
  end.

Definition is_space (c : ascii) : bool :=
  Ascii.eqb c " " || Ascii.eqb c "009".

Fixpoint lstrip (s : string) : string :=
  match s with
  | String c r => if is_space c then lstrip r else s
  | EmptyString => s
  end.

Fixpoint rstrip (s : string) : string :=
  match s with
  | EmptyString => ""
  | String c r =>
      match rstrip r with
      | EmptyString => if is_space c then "" else String c ""
      | r' => String c r'
      end
  end.

Definition strip (s : string) : string := rstrip (lstrip s).

Definition is_digit (c : ascii) : bool :=
  let n := nat_of_ascii c in ((48 <=? n) && (n <=? 57))%nat.

Definition is_alpha (c : ascii) : bool :=
  let n := nat_of_ascii c in
  (((65 <=? n) && (n <=? 90)) || ((97 <=? n) && (n <=? 122)))%nat.

Fixpoint digits (acc : nat) (s : string) : option nat :=
  match s with
  | EmptyString => Some acc
  | String c r =>
      if is_digit c then digits (10 * acc + (nat_of_ascii c - 48)) r
      else None
  end.

(** [int(s)] for a non-empty string of decimal digits. *)
Definition parse_nat (s : string) : option nat :=
  match s with
  | EmptyString => None
  | _ => digits 0 s
  end.

Fixpoint traverse {A B : Type} (f : A -> option B) (l : list A)
  : option (list B) :=
  match l with
  | [] => Some []
  | a :: r =>
      match f a, traverse f r with
      | Some b, Some bs => Some (b :: bs)
      | _, _ => None
      end
  end.

End Str.

(* ================================================================== *)
(** ** The build tree *)

Module FS.

(** A directory lists its entries in the order the operating system
    reports them; a regular file holds bytes.  Two kinds of entry that are
    there and cannot be read are kept apart. *)
Inductive node : Type :=
| File (data : list byte)
| Dir (entries : list (string * node))
| Locked      (* a regular file that the process may not read *)
| Loop.       (* a symbolic link that leads back to itself *)

Fixpoint assoc (name : string) (es : list (string * node)) : option node :=
  match es with
  | [] => None
  | (k, n) :: rest => if String.eqb k name then Some n else assoc name rest
  end.

(** Resolve a relative path, given by its components, from [n]. *)
Fixpoint lookup (n : node) (path : list string) : option node :=
  match path with
  | [] => Some n
  | c :: rest =>
      match n with
      | Dir es =>
          match assoc c es with
          | Some child => lookup child rest
          | None => None
          end
      | _ => None
      end
  end.

(** [os.path.isfile]: a regular file, readable or not. *)
Definition isfile (o : option node) : bool :=
  match o with Some (File _) | Some Locked => true | _ => false end.

Fixpoint names_distinct (es : list (string * node)) : bool :=
  match es with
  | [] => true
  | (k, _) :: rest =>
      match assoc k rest with
      | Some _ => false
      | None => names_distinct rest
      end
  end.

(** A tree is well formed when no directory lists a name twice. *)
Fixpoint wf (n : node) : bool :=
  match n with
  | Dir es =>
      names_distinct es && List.forallb (fun entry => wf (snd entry)) es
  | _ => true
  end.

End FS.

(* ================================================================== *)
(** ** Text decoding, as [open(path).read()] performs it *)

Module Codec.

(** The default text encoding of [open] is the locale's. *)
Inductive encoding : Type := UTF8 | Latin1 | ASCII.

Definition between (lo b hi : N) : bool := ((lo <=? b) && (b <=? hi))%N.
Definition cont (b : N) : bool := between 128 b 191.

(** Strict UTF-8: well-formed sequences only (no overlong forms, no
    surrogates, nothing above U+10FFFF). *)
Fixpoint utf8_valid (bs : list N) : bool :=
  match bs with
  | [] => true
  | b0 :: r0 =>
      if (b0 <? 128)%N then utf8_valid r0
      else if between 194 b0 223 then
        match r0 with
        | b1 :: r1 => cont b1 && utf8_valid r1
        | _ => false
        end
      else if between 224 b0 239 then
        match r0 with
        | b1 :: b2 :: r2 =>
            between (if (b0 =? 224)%N then 160 else 128) b1
                    (if (b0 =? 237)%N then 159 else 191)
            && cont b2 && utf8_valid r2
        | _ => false
        end
      else if between 240 b0 244 then
        match r0 with
        | b1 :: b2 :: b3 :: r3 =>
            between (if (b0 =? 240)%N then 144 else 128) b1
                    (if (b0 =? 244)%N then 143 else 191)
            && cont b2 && cont b3 && utf8_valid r3
        | _ => false
        end
      else false
  end.

(** ISO 8859-1: byte [b] is code point [b]; above 127 its UTF-8 form has
    two bytes. *)
Definition latin1_char (b : N) : list N :=
  if (b <? 128)%N then [b]
  else [(192 + b / 64)%N; (128 + b mod 64)%N].

Definition of_bytes (bs : list N) : string :=
  string_of_list_ascii (map ascii_of_N bs).

Definition decode (enc : encoding) (data : list byte) : option Py.str :=
  let bs := map Byte.to_N data in
  match enc with
  | UTF8 => if utf8_valid bs then Some (of_bytes bs) else None
  | Latin1 => Some (of_bytes (flat_map latin1_char bs))
  | ASCII => if List.forallb (fun b => b <? 128)%N bs
             then Some (of_bytes bs) else None
  end.

(** Universal newlines, the default of text mode: CR LF and a lone CR are
    read as LF. *)
Fixpoint universal_newlines (s : Py.str) : Py.str :=
  match s with
  | EmptyString => ""
  | String c r =>
      if Ascii.eqb c "013" then
        match r with
        | String c' r' =>
            if Ascii.eqb c' "010" then String "010" (universal_newlines r')
            else String "010" (universal_newlines r)
        | EmptyString => String "010" ""
        end
      else String c (universal_newlines r)
  end.

End Codec.

(* ================================================================== *)
(** ** The build environment and the two library calls *)

Record env : Type := {
  cwd : FS.node;                       (* the directory the script runs in *)
  locale_encoding : Codec.encoding;    (* default encoding of [open] *)
  walk_depth : option nat              (* how deep [os.walk] can recurse *)
}.

Module Builtins.

(** [open(path).read()] for a path of one component: text mode, default
    encoding, universal newlines. *)
Definition open_read (e : env) (path : string) : Py.result Py.str :=
  match FS.lookup (cwd e) [path] with
  | None => Py.Raise Py.FileNotFoundError
  | Some (FS.Dir _) => Py.Raise Py.IsADirectoryError
  | Some FS.Locked => Py.Raise Py.PermissionError
  | Some FS.Loop => Py.Raise Py.OSError
  | Some (FS.File data) =>
      match Codec.decode (locale_encoding e) data with
      | None => Py.Raise Py.UnicodeDecodeError
      | Some s => Py.Ok (Codec.universal_newlines s)
      end
  end.

End Builtins.

(** setuptools' [find_packages(where)], with its defaults
    [exclude=()] and [include=("*",)]: a top-down [os.walk] of [where]
    that visits, directory by directory, each sub-directory whose name has no
    dot and that holds a regular file [__init__.py], and descends only into
    those.  The dotted name of a directory visited is yielded unless it
    matches [ALWAYS_EXCLUDE]; the walk descends into it either way.  A
    [where] that is not a directory yields nothing.  Up to Python 3.11
    [os.walk] recurses once per directory level, and raises [RecursionError]
    when the interpreter's stack is used up. *)
Module Setuptools.

(** [rel_path.replace(os.path.sep, ".")] on the components of the path. *)
Definition dotted (rel : list string) : string := String.concat "." rel.

Definition looks_like_package (n : FS.node) : bool :=
  match n with
  | FS.Dir es => FS.isfile (FS.assoc "__init__.py" es)
  | _ => false
  end.

Definition keeps (entry : string * FS.node) : bool :=
  negb (Str.mem "." (fst entry)) && looks_like_package (snd entry).

(** [ALWAYS_EXCLUDE = ("ez_setup", "*__pycache__")], matched against the
    dotted name. *)
Definition always_exclude (package : string) : bool :=
  String.eqb package "ez_setup" || Str.has_suffix "__pycache__" package.

Definition yields (package : string) : bool := negb (always_exclude package).

(** The results of the walks below one directory, in order; the first
    exception ends the walk. *)
Fixpoint collect {A : Type} (rs : list (Py.result (list A)))
  : Py.result (list A) :=
  match rs with
  | [] => Py.Ok []
  | r :: rest => x <- r ;; xs <- collect rest ;; Py.Ok (x ++ xs)
  end.

(** [depth] is the number of directory levels that [os.walk] can still
    enter below this one: [None] where it does not recurse (from Python
    3.12 on). *)
Fixpoint walk (depth : option nat) (rel : list string) (n : FS.node)
  : Py.result (list string) :=
  match n with
  | FS.Dir es =>
      let here := map (fun entry => dotted (rel ++ [fst entry]))
                      (filter keeps es) in
      below <- collect
                 (map (fun entry =>
                         if keeps entry
                         then match depth with
                              | Some 0 => Py.Raise Py.RecursionError
                              | Some (S k) =>
                                  walk (Some k) (rel ++ [fst entry])
                                       (snd entry)
                              | None =>
                                  walk None (rel ++ [fst entry]) (snd entry)
                              end
                         else Py.Ok []) es) ;;
      Py.Ok (filter yields here ++ below)
  | _ => Py.Ok []
  end.

Definition find_packages (e : env) (where_ : string)
  : Py.result (list string) :=
  match FS.lookup (cwd e) [where_] with
  | Some n => walk (walk_depth e) [] n
  | None => Py.Ok []
  end.

(** Every directory that a walk without limit visits as a package, by
    dotted name, whether its name is yielded or not. *)
Fixpoint candidates (rel : list string) (n : FS.node) : list string :=
  match n with
  | FS.Dir es =>
      map (fun entry => dotted (rel ++ [fst entry])) (filter keeps es)
      ++ flat_map (fun entry =>
                     if keeps entry
                     then candidates (rel ++ [fst entry]) (snd entry)
                     else []) es
  | _ => []
  end.

Definition find_candidates (e : env) (where_ : string) : list string :=
  match FS.lookup (cwd e) [where_] with
  | Some n => candidates [] n
  | None => []
  end.


(** An entry point [name = module:attr]. *)
Record entry_point : Type := {
  ep_name : string;
  ep_module : string;
  ep_attr : string
}.

Definition parse_entry_point (s : string) : option entry_point :=
  let (nm, rest) := Str.span (fun c => negb (Ascii.eqb c "=")) s in
  match rest with
  | String _ value =>
      let (md, rest') := Str.span (fun c => negb (Ascii.eqb c ":")) value in
      match rest' with
      | String _ attr =>
          Some {| ep_name := Str.strip nm;
                  ep_module := Str.strip md;
                  ep_attr := Str.strip attr |}
      | EmptyString => None
      end
  | EmptyString => None
  end.

End Setuptools.

(* ================================================================== *)
(** ** Requirement strings and version specifiers (PEP 508, PEP 440) *)

Module Packaging.

Inductive operator : Type :=
| Compatible   (* ~= *)
| Matching     (* == *)
| Excluding    (* != *)
| AtMost       (* <= *)
| AtLeast      (* >= *)
| Below        (* <  *)
| Above        (* >  *)
| Arbitrary.   (* === *)

(** The operators, longest spelling first. *)
Definition operators : list (string * operator) :=
  [ ("===", Arbitrary); ("~=", Compatible); ("==", Matching);
    ("!=", Excluding); ("<=", AtMost); (">=", AtLeast);
    ("<", Below); (">", Above) ].

Fixpoint first_operator (ops : list (string * operator)) (s : string)
  : option (operator * string) :=
  match ops with
  | [] => None
  | (spelling, op) :: rest =>
      match Str.strip_prefix spelling s with
      | Some v => Some (op, v)
      | None => first_operator rest s
      end
  end.

Definition is_version_char (c : ascii) : bool :=
  Str.is_alpha c || Str.is_digit c || Str.mem c ".*+!-_".

(** One clause of a specifier set: an operator and a version text. *)
Definition parse_clause (s : string) : option (operator * string) :=
  match first_operator operators (Str.strip s) with
  | Some (op, v) =>
      let v' := Str.strip v in
      match v' with
      | EmptyString => None
      | _ => if Str.forallb is_version_char v' then Some (op, v') else None
      end
  | None => None
  end.

(** A specifier set: clauses separated by commas; the empty set is the
    empty text. *)
Definition parse_specifier_set (s : string)
  : option (list (operator * string)) :=
  match Str.strip s with
  | EmptyString => Some []
  | _ => Str.traverse parse_clause (Str.split_on "," s)
  end.

Definition is_name_char (c : ascii) : bool :=
  Str.is_alpha c || Str.is_digit c || Str.mem c "-_.".

(** A requirement without extras, markers or URL: a distribution name and a
    specifier set. *)
Definition parse_requirement (s : string)
  : option (string * list (operator * string)) :=
  let (nm, rest) := Str.span is_name_char (Str.strip s) in
  match nm with
  | EmptyString => None
  | _ =>
      match parse_specifier_set rest with
      | Some clauses => Some (nm, clauses)
      | None => None
      end
  end.

(** A release: the dot-separated numbers of a final version. *)
Definition parse_release (s : string) : option (list nat) :=
  Str.traverse Str.parse_nat (Str.split_on "." s).

(** Releases compare number by number, the shorter padded with zeros. *)
Fixpoint compare_release (a b : list nat) : comparison :=
  match a, b with
  | [], _ => if List.forallb (Nat.eqb 0) b then Eq else Lt
  | x :: a', [] => if List.forallb (Nat.eqb 0) a then Eq else Gt
  | x :: a', y :: b' =>
      match Nat.compare x y with
      | Eq => compare_release a' b'
      | c => c
      end
  end.

Fixpoint is_prefix (p v : list nat) : bool :=
  match p, v with
  | [], _ => true
  | x :: p', y :: v' => Nat.eqb x y && is_prefix p' v'
  | _ :: _, [] => List.forallb (Nat.eqb 0) p
  end.

(** Does release [v] satisfy the clause [op w]? *)
Definition satisfies (v : list nat) (clause : operator * list nat) : bool :=
  let (op, w) := clause in
  match op, compare_release v w with
  | Matching, Eq | AtMost, Eq | AtLeast, Eq => true
  | Excluding, Lt | Excluding, Gt => true
  | AtMost, Lt | Below, Lt => true
  | AtLeast, Gt | Above, Gt => true
  | Compatible, (Eq | Gt) => is_prefix (removelast w) v
  | Arbitrary, _ => if list_eq_dec Nat.eq_dec v w then true else false
  | _, _ => false
  end.

Definition python_classifier : string := "Programming Language :: Python :: ".

(** The Python versions a list of trove classifiers names. *)
Definition classified_pythons (cs : list string) : list (list nat) :=
  flat_map (fun c =>
              match Str.strip_prefix python_classifier c with
              | Some v =>
                  match parse_release v with
                  | Some r => [r]
                  | None => []
                  end
              | None => []
              end) cs.

End Packaging.

(* ================================================================== *)
(** ** The manifest: [python/setup.py] *)

(** The keyword arguments of the [setup] call, in the order written. *)
Record setup_args : Type := {
  name : string;
  version : string;
  description : string;
  long_description : Py.str;
  long_description_content_type : string;
  author : string;
  python_requires : string;
  packages : list string;
  package_dir : list (string * string);
  install_requires : list string;
  extras_require : list (string * list string);
  entry_points : list (string * list string);
  classifiers : list string
}.

(** The script: its keyword arguments are evaluated in order, so
    [open("README.md").read()] runs before [find_packages]. *)
Definition setup_py (e : env) : Py.result setup_args :=
  readme <- Builtins.open_read e "README.md" ;;
  found <- Setuptools.find_packages e "python" ;;
  Py.Ok {|
    name := "api-doc-gen-python";
    version := "1.0.0";
    description := "Python parser module for API Documentation Generator";
    long_description := readme;
    long_description_content_type := "text/markdown";
    author := "API Documentation Generator Team";
    python_requires := ">=3.9";
    packages := found;
    package_dir := [("", "python")];
    install_requires := [
      "docstring-parser>=0.15";
      "pydoc-markdown>=4.8.0";
      "typing-extensions>=4.7.0";
      "pydantic>=2.4.0";
      "click>=8.1.0"
    ];
    extras_require := [
      ("dev", [
        "pytest>=7.4.0";
        "pytest-cov>=4.1.0";
        "black>=23.7.0";
        "flake8>=6.0.0";
        "mypy>=1.5.0";
        "isort>=5.12.0";
        "pre-commit>=3.4.0"
      ])
    ];
    entry_points := [
      ("console_scripts", [
        "api-doc-gen-python=api_doc_gen_python.cli:main"
      ])
    ];
    classifiers := [
      "Development Status :: 4 - Beta";
      "Intended Audience :: Developers";
      "License :: OSI Approved :: MIT License";
      "Operating System :: OS Independent";
      "Programming Language :: Python :: 3";
      "Programming Language :: Python :: 3.9";
      "Programming Language :: Python :: 3.10";
      "Programming Language :: Python :: 3.11";
      "Programming Language :: Python :: 3.12";
      "Topic :: Software Development :: Documentation"
    ]
  |}.

(** [extras_require[extra]], the empty list when the extra is not declared. *)
Fixpoint extra (key : string) (extras : list (string * list string))
  : list string :=
  match extras with
  | [] => []
  | (k, reqs) :: rest => if String.eqb k key then reqs else extra key rest
  end.

(** Every requirement string the manifest declares. *)
Definition declared_requirements (a : setup_args) : list string :=
  install_requires a ++ flat_map snd (extras_require a).

(** Build trees used as examples below. *)
Definition bytes (s : string) : list byte := list_byte_of_string s.

Definition tree_readme_only : FS.node :=
  FS.Dir [("README.md", FS.File (bytes "# API doc generator"));
          ("setup.py", FS.File [])].

Definition tree_with_package : FS.node :=
  FS.Dir [("README.md", FS.File (bytes "# API doc generator"));
          ("setup.py", FS.File []);
          ("python",
           FS.Dir [("api_doc_gen_python",
                    FS.Dir [("__init__.py", FS.File []);
                            ("cli.py", FS.File (bytes "def main(): pass"));
                            ("parsers",
                             FS.Dir [("__init__.py", FS.File [])]);
                            ("data", FS.Dir [])]);
                   ("tests", FS.Dir [("test_cli.py", FS.File [])]);
                   ("legacy.v1", FS.Dir [("__init__.py", FS.File [])])])].

Definition env_readme_only : env :=
  {| cwd := tree_readme_only; locale_encoding := Codec.UTF8;
     walk_depth := None |}.
Definition env_with_package : env :=
  {| cwd := tree_with_package; locale_encoding := Codec.UTF8;
     walk_depth := Some 900 |}.

(* ================================================================== *)
(** ** The syntax of the source file *)

Module Syntax.

(** Expressions and statements, after Python's [ast] module, as far as a
    script of this size needs them. *)
Inductive expr : Type :=
| StrLit (s : string)
| Name (id : string)
| ListLit (elts : list expr)
| DictLit (items : list (expr * expr))
| Attribute (value : expr) (attr : string)
| Call (func : expr) (args : list expr) (keywords : list (string * expr)).

Inductive stmt : Type :=
| Import (modules : list string)
| ImportFrom (module : string) (names : list string)
| Expr (value : expr)
| Assign (target : string) (value : expr)
| Return (value : expr)
| FunctionDef (fname : string) (params : list string) (body : list stmt)
| ClassDef (cname : string) (body : list stmt)
| If (test : expr) (body : list stmt) (orelse : list stmt)
| For (target : string) (iter : expr) (body : list stmt)
| While (test : expr) (body : list stmt).

(** [python/setup.py], statement by statement. *)
Definition setup_py_ast : list stmt :=
  [ ImportFrom "setuptools" ["setup"; "find_packages"];
    Expr (Call (Name "setup") [] [
      ("name", StrLit "api-doc-gen-python");
      ("version", StrLit "1.0.0");
      ("description",
       StrLit "Python parser module for API Documentation Generator");
      ("long_description",
       Call (Attribute (Call (Name "open") [StrLit "README.md"] []) "read")
            [] []);
      ("long_description_content_type", StrLit "text/markdown");
      ("author", StrLit "API Documentation Generator Team");
      ("python_requires", StrLit ">=3.9");
      ("packages", Call (Name "find_packages") [] [("where", StrLit "python")]);
      ("package_dir", DictLit [(StrLit "", StrLit "python")]);
      ("install_requires", ListLit [
         StrLit "docstring-parser>=0.15";
         StrLit "pydoc-markdown>=4.8.0";
         StrLit "typing-extensions>=4.7.0";
         StrLit "pydantic>=2.4.0";
         StrLit "click>=8.1.0" ]);
      ("extras_require", DictLit [
         (StrLit "dev", ListLit [
            StrLit "pytest>=7.4.0";
            StrLit "pytest-cov>=4.1.0";
            StrLit "black>=23.7.0";
            StrLit "flake8>=6.0.0";
            StrLit "mypy>=1.5.0";
            StrLit "isort>=5.12.0";
            StrLit "pre-commit>=3.4.0" ]) ]);
      ("entry_points", DictLit [
         (StrLit "console_scripts", ListLit [
            StrLit "api-doc-gen-python=api_doc_gen_python.cli:main" ]) ]);
      ("classifiers", ListLit [
         StrLit "Development Status :: 4 - Beta";
         StrLit "Intended Audience :: Developers";
         StrLit "License :: OSI Approved :: MIT License";
         StrLit "Operating System :: OS Independent";
         StrLit "Programming Language :: Python :: 3";
         StrLit "Programming Language :: Python :: 3.9";
         StrLit "Programming Language :: Python :: 3.10";
         StrLit "Programming Language :: Python :: 3.11";
         StrLit "Programming Language :: Python :: 3.12";
         StrLit "Topic :: Software Development :: Documentation" ])
    ]) ].

(** The source files supplied, by path from the repository root. *)
Definition supplied_source : list (list string * list stmt) :=
  [ (["python"; "setup.py"], setup_py_ast) ].

(** *** What a piece of source defines *)

(** Functions defined anywhere in a block, nested ones included. *)
Fixpoint functions_of (s : stmt) : list string :=
  let block := fix block (l : list stmt) : list string :=
                 match l with
                 | [] => []
                 | x :: r => functions_of x ++ block r
                 end in
  match s with
  | FunctionDef f _ body => f :: block body
  | ClassDef _ body => block body
  | If _ body orelse => block body ++ block orelse
  | For _ _ body | While _ body => block body
  | Import _ | ImportFrom _ _ | Expr _ | Assign _ _ | Return _ => []
  end.

Fixpoint classes_of (s : stmt) : list string :=
  let block := fix block (l : list stmt) : list string :=
                 match l with
                 | [] => []
                 | x :: r => classes_of x ++ block r
                 end in
  match s with
  | ClassDef c body => c :: block body
  | FunctionDef _ _ body => block body
  | If _ body orelse => block body ++ block orelse
  | For _ _ body | While _ body => block body
  | Import _ | ImportFrom _ _ | Expr _ | Assign _ _ | Return _ => []
  end.

(** Statements that branch, loop, bind a variable or return. *)
Definition is_logic (s : stmt) : bool :=
  match s with
  | Import _ | ImportFrom _ _ | Expr _ => false
  | _ => true
  end.

(** The names a module binds at its top level: what [module:attr] can
    refer to. *)
Definition binds (s : stmt) : list string :=
  match s with
  | Import ms => ms
  | ImportFrom _ ns => ns
  | Assign t _ => [t]
  | FunctionDef f _ _ => [f]
  | ClassDef c _ => [c]
  | _ => []
  end.

(** A literal: a string, or a list or dict display of literals. *)
Fixpoint is_literal (x : expr) : bool :=
  match x with
  | StrLit _ => true
  | ListLit elts =>
      (fix all (l : list expr) : bool :=
         match l with [] => true | y :: r => is_literal y && all r end) elts
  | DictLit items =>
      (fix all (l : list (expr * expr)) : bool :=
         match l with
         | [] => true
         | (k, v) :: r => is_literal k && is_literal v && all r
         end) items
  | Name _ | Attribute _ _ | Call _ _ _ => false
  end.

(** The callee of a direct computation: a name, or a method of the result
    of another direct computation. *)
Fixpoint is_direct (x : expr) : bool :=
  match x with
  | Call f args kws =>
      match f with
      | Name _ => true
      | Attribute obj _ => is_direct obj
      | _ => false
      end
      && List.forallb is_literal args
      && List.forallb (fun kw => is_literal (snd kw)) kws
  | _ => false
  end.

End Syntax.

(* ================================================================== *)
(** ** Running the source file *)

(** An evaluator for the fragment of Python the script is written in.  It
    gives the syntax tree above its meaning, so that the function
    [setup_py] can be checked against the file as written. *)
Module Interp.
Import Syntax.

Inductive value : Type :=
| VStr (s : Py.str)
| VList (elts : list value)
| VDict (items : list (value * value)).

(** [None]: the program leaves the fragment. *)
Definition outcome (A : Type) : Type := option (Py.result A).

Definition ret {A : Type} (a : A) : outcome A := Some (Py.Ok a).

Definition andthen {A B : Type} (o : outcome A) (k : A -> outcome B)
  : outcome B :=
  match o with
  | Some (Py.Ok a) => k a
  | Some (Py.Raise ex) => Some (Py.Raise ex)
  | None => None
  end.

Definition bound (id : string) (scope : list string) : bool :=
  List.existsb (String.eqb id) scope.

(** [scope] holds the names imported so far; [open] is a builtin. *)
Fixpoint eval (e : env) (scope : list string) (x : expr) : outcome value :=
  match x with
  | StrLit s => ret (VStr s)
  | ListLit elts =>
      andthen
        ((fix each (l : list expr) : outcome (list value) :=
            match l with
            | [] => ret []
            | y :: r =>
                andthen (eval e scope y) (fun v =>
                andthen (each r) (fun vs => ret (v :: vs)))
            end) elts)
        (fun vs => ret (VList vs))
  | DictLit items =>
      andthen
        ((fix each (l : list (expr * expr)) : outcome (list (value * value)) :=
            match l with
            | [] => ret []
            | (k, v) :: r =>
                andthen (eval e scope k) (fun kv =>
                andthen (eval e scope v) (fun vv =>
                andthen (each r) (fun rest => ret ((kv, vv) :: rest))))
            end) items)
        (fun kvs => ret (VDict kvs))
  | Call (Name f) [] [(k, w)] =>
      if String.eqb f "find_packages" && bound f scope && String.eqb k "where"
      then andthen (eval e scope w) (fun v =>
             match v with
             | VStr dir =>
                 Some (found <- Setuptools.find_packages e dir ;;
                       Py.Ok (VList (map VStr found)))
             | _ => None
             end)
      else None
  | Call (Attribute (Call (Name f) [p] []) m) [] [] =>
      if String.eqb f "open" && negb (bound f scope) && String.eqb m "read"
      then andthen (eval e scope p) (fun v =>
             match v with
             | VStr path =>
                 Some (s <- Builtins.open_read e path ;; Py.Ok (VStr s))
             | _ => None
             end)
      else None
  | _ => None
  end.

(** Keyword arguments are evaluated in the order written. *)
Fixpoint eval_keywords (e : env) (scope : list string)
                       (kws : list (string * expr))
  : outcome (list (string * value)) :=
  match kws with
  | [] => ret []
  | (k, x) :: r =>
      andthen (eval e scope x) (fun v =>
      andthen (eval_keywords e scope r) (fun vs => ret ((k, v) :: vs)))
  end.

(** A script: imports from setuptools, then one call of [setup]; its
    result is the keyword arguments that reach [setup]. *)
Fixpoint run (e : env) (scope : list string) (body : list stmt)
  : outcome (list (string * value)) :=
  match body with
  | ImportFrom m ns :: rest =>
      if String.eqb m "setuptools" then run e (ns ++ scope) rest else None
  | [Expr (Call (Name f) [] kws)] =>
      if String.eqb f "setup" && bound f scope
      then eval_keywords e scope kws
      else None
  | _ => None
  end.

Definition strs (l : list string) : value := VList (map VStr l).

(** The record of [setup]'s arguments, as keyword arguments. *)
Definition keywords_of (a : setup_args) : list (string * value) :=
  [ ("name", VStr (name a));
    ("version", VStr (version a));
    ("description", VStr (description a));
    ("long_description", VStr (long_description a));
    ("long_description_content_type",
     VStr (long_description_content_type a));
    ("author", VStr (author a));
    ("python_requires", VStr (python_requires a));
    ("packages", strs (packages a));
    ("package_dir",
     VDict (map (fun kv => (VStr (fst kv), VStr (snd kv))) (package_dir a)));
    ("install_requires", strs (install_requires a));
    ("extras_require",
     VDict (map (fun kv => (VStr (fst kv), strs (snd kv)))
                (extras_require a)));
    ("entry_points",
     VDict (map (fun kv => (VStr (fst kv), strs (snd kv)))
                (entry_points a)));
    ("classifiers", strs (classifiers a)) ].

End Interp.

(* ================================================================== *)
(** ** What the declarations say, as the packaging tools read them *)

(** The distribution names of a list of requirement strings. *)
Definition requirement_names (reqs : list string) : option (list string) :=
  option_map (map fst) (Str.traverse Packaging.parse_requirement reqs).

(** A requirement that constrains its distribution from below only. *)
Definition lower_bound_only (req : string) : Prop :=
  exists dist v,
    Packaging.parse_requirement req = Some (dist, [(Packaging.AtLeast, v)]).

(** Does the interpreter release [v] satisfy [python_requires]? *)
Definition python_allowed (a : setup_args) (v : list nat) : bool :=
  match Packaging.parse_specifier_set (python_requires a) with
  | Some clauses =>
      List.forallb
        (fun clause =>
           match Packaging.parse_release (snd clause) with
           | Some w => Packaging.satisfies v (fst clause, w)
           | None => false
           end) clauses
  | None => false
  end.

(** The console scripts of the manifest, parsed. *)
Definition console_scripts (a : setup_args)
  : option (list Setuptools.entry_point) :=
  Str.traverse Setuptools.parse_entry_point
               (extra "console_scripts" (entry_points a)).

Fixpoint ends_with (suffix path : list string) : bool :=
  if list_eq_dec string_dec suffix path then true
  else match path with
       | [] => false
       | _ :: rest => ends_with suffix rest
       end.

(** The files that can hold module [md]: [a/b.py] or [a/b/__init__.py]
    for [a.b]. *)
Definition module_files (md : string) : list (list string) :=
  let comps := Str.split_on "." md in
  [ removelast comps ++ [String.append (last comps "") ".py"];
    comps ++ ["__init__.py"] ].

(** Does the source [src] hold the target of the entry point: a file of its
    module that binds its attribute at top level? *)
Definition provides (src : list (list string * list Syntax.stmt))
                    (ep : Setuptools.entry_point) : bool :=
  List.existsb
    (fun file =>
       List.existsb (fun mf => ends_with mf (fst file))
                    (module_files (Setuptools.ep_module ep))
       && List.existsb (String.eqb (Setuptools.ep_attr ep))
                       (flat_map Syntax.binds (snd file)))
    src.

(** The top-level package of a dotted module name. *)
Definition top_package (md : string) : string :=
  hd "" (Str.split_on "." md).

(** The source of module [md] as an import finds it below [root]: the
    package [md/__init__.py] when that is a file, else the module [md.py].
    A source that cannot be read gives nothing. *)
Definition module_source (e : env) (root md : string) : option (list byte) :=
  let comps := Str.split_on "." md in
  let as_package := FS.lookup (cwd e) (root :: comps ++ ["__init__.py"]) in
  let as_module :=
    FS.lookup (cwd e)
              (root :: removelast comps
                      ++ [String.append (last comps "") ".py"]) in
  match (if FS.isfile as_package then as_package else as_module) with
  | Some (FS.File data) => Some data
  | _ => None
  end.

(** Does the target [module:attr] of [ep] exist in the build tree: is the
    source of its module found where [package_dir] says, and does that
    source bind the attribute?  Which names a source binds is for Python to
    say, not for this development: [binds source name]. *)
Definition target_exists (binds : list byte -> string -> bool)
                         (e : env) (a : setup_args)
                         (ep : Setuptools.entry_point) : bool :=
  match package_dir a with
  | [(EmptyString, root)] =>
      match module_source e root (Setuptools.ep_module ep) with
      | Some source => binds source (Setuptools.ep_attr ep)
      | None => false
      end
  | _ => false
  end.

(** The metadata is consistent in a build tree when, for every console
    script, the package of its module is among the packages found and its
    target exists. *)
Definition metadata_consistent (binds : list byte -> string -> bool)
                               (e : env) (a : setup_args) : bool :=
  match console_scripts a with
  | Some eps =>
      List.forallb
        (fun ep =>
           List.existsb
             (String.eqb (top_package (Setuptools.ep_module ep)))
             (packages a)
           && target_exists binds e a ep)
        eps
  | None => false
  end.

(** A stand-in for Python on the sources of the example trees: the one
    source that binds a name is [def main(): pass]. *)
Definition example_binds (source : list byte) (name : string) : bool :=
  String.eqb (string_of_list_byte source) "def main(): pass"
  && String.eqb name "main".

(** The arguments of [setup] that are written as literals. *)
Definition literal_arguments (a : setup_args)
  : list string * list (list string)
    * list (list (string * string)) * list (list (string * list string)) :=
  ( [ name a; version a; description a; long_description_content_type a;
      author a; python_requires a ],
    [ install_requires a; classifiers a ],
    [ package_dir a ],
    [ extras_require a; entry_points a ] ).

(** More build trees used as examples below. *)
Definition env_undecodable : env :=
  {| cwd := FS.Dir [("README.md", FS.File [Byte.xff]);
                    ("setup.py", FS.File [])];
     locale_encoding := Codec.UTF8;
     walk_depth := None |}.

Definition env_locked : env :=
  {| cwd := FS.Dir [("README.md", FS.Locked); ("setup.py", FS.File [])];
     locale_encoding := Codec.UTF8;
     walk_depth := None |}.

(** The tree with the package, on an interpreter whose stack lets [os.walk]
    enter one level of directories only. *)
Definition env_shallow_stack : env :=
  {| cwd := tree_with_package; locale_encoding := Codec.UTF8;
     walk_depth := Some 1 |}.

(** The package with a module [cli] that binds nothing. *)
Definition env_cli_without_main : env :=
  {| cwd :=
       FS.Dir [("README.md", FS.File (bytes "# API doc generator"));
               ("python",
                FS.Dir [("api_doc_gen_python",
                         FS.Dir [("__init__.py", FS.File []);
                                 ("cli.py", FS.File [])])])];
     locale_encoding := Codec.UTF8;
     walk_depth := None |}.

(** A tree whose [python/] holds only names that the finder never yields,
    and a package below one of them. *)
Definition env_excluded_names : env :=
  {| cwd :=
       FS.Dir [("README.md", FS.File (bytes "# API doc generator"));
               ("python",
                FS.Dir [("ez_setup",
                         FS.Dir [("__init__.py", FS.File []);
                                 ("sub",
                                  FS.Dir [("__init__.py", FS.File [])])]);
                        ("__pycache__",
                         FS.Dir [("__init__.py", FS.File [])])])];
     locale_encoding := Codec.UTF8;
     walk_depth := None |}.

Definition env_with_licence : env :=
  {| cwd := match tree_with_package with
            | FS.Dir es => FS.Dir (("LICENSE", FS.File (bytes "MIT")) :: es)
            | n => n
            end;
     locale_encoding := Codec.UTF8;
     walk_depth := Some 900 |}.

(** Is [comps] a chain of packages below [n]: each component a directory,
    named without a dot and holding [__init__.py], inside the one before? *)
Fixpoint package_chain (n : FS.node) (comps : list string) : bool :=
  match comps with
  | [] => true
  | d :: rest =>
      negb (Str.mem "." d)
      && match FS.lookup n [d] with
         | Some c => Setuptools.looks_like_package c && package_chain c rest
         | None => false
         end
  end.

(** Does release [v] satisfy every clause of a parsed specifier set? *)
Definition clauses_allow (clauses : list (Packaging.operator * string))
                         (v : list nat) : bool :=
  List.forallb
    (fun clause =>
       match Packaging.parse_release (snd clause) with
       | Some w => Packaging.satisfies v (fst clause, w)
       | None => false
       end) clauses.

(** Does release [v] of its distribution satisfy the requirement [req]? *)
Definition requirement_allows (req : string) (v : list nat) : bool :=
  match Packaging.parse_requirement req with
  | Some (_, clauses) => clauses_allow clauses v
  | None => false
  end.

(** A release as it is written: its numbers in decimal, separated by
    dots. *)
Definition show_release (w : list nat) : string :=
  String.concat "." (map (fun n => NilEmpty.string_of_uint (Nat.to_uint n)) w).

(** [v] is at least [w], as releases. *)
Definition release_ge (v w : list nat) : Prop :=
  Packaging.compare_release v w <> Lt.

(** The bytes of a file, as [open] sees them. *)
Definition octets (data : list byte) : list N := map Byte.to_N data.

Definition env_crlf : env :=
  {| cwd := FS.Dir [("README.md",
                     FS.File [Byte.x61; Byte.x0d; Byte.x0a; Byte.x62])];
     locale_encoding := Codec.UTF8;
     walk_depth := None |}.

(** The walk of the package finder, yielding paths (lists of directory
    names) instead of dotted names. *)
Fixpoint walk_paths (n : FS.node) : list (list string) :=
  match n with
  | FS.Dir es =>
      map (fun entry => [fst entry]) (filter Setuptools.keeps es)
      ++ flat_map (fun entry =>
                     if Setuptools.keeps entry
                     then map (cons (fst entry)) (walk_paths (snd entry))
                     else []) es
  | _ => []
  end.

(* ================================================================== *)
(** * Properties *)

(** ** The function [setup_py] is the file as written *)

Lemma setup_py_refines_source (e : env) :
  Interp.run e [] Syntax.setup_py_ast
  = Some (a <- setup_py e ;; Py.Ok (Interp.keywords_of a)).
Proof.
  unfold setup_py.
  cbv -[Builtins.open_read Setuptools.find_packages].
  destruct (Builtins.open_read e "README.md"); [ | reflexivity ].
  destruct (Setuptools.find_packages e "python"); reflexivity.
Qed.

(** ** The library models on examples *)

Example find_packages_example :
  Setuptools.find_packages env_with_package "python"
  = Py.Ok ["api_doc_gen_python"; "api_doc_gen_python.parsers"]
  /\ Setuptools.find_packages env_readme_only "python" = Py.Ok []
  /\ Setuptools.find_packages env_excluded_names "python"
     = Py.Ok ["ez_setup.sub"]
  /\ Setuptools.find_packages env_shallow_stack "python"
     = Py.Raise Py.RecursionError.
Proof. repeat split; reflexivity. Qed.

Example decode_examples :
  Codec.decode Codec.UTF8 [Byte.xc3; Byte.xa9] <> None
  /\ Codec.decode Codec.UTF8 [Byte.xe9] = None
  /\ Codec.decode Codec.Latin1 [Byte.xe9]
     = Codec.decode Codec.UTF8 [Byte.xc3; Byte.xa9]
  /\ Codec.decode Codec.ASCII [Byte.xe9] = None
  /\ Codec.decode Codec.UTF8 [Byte.xc0; Byte.x80] = None
  /\ Codec.decode Codec.UTF8 [Byte.xed; Byte.xa0; Byte.x80] = None.
Proof. repeat split; (reflexivity || discriminate). Qed.

(** A README.md with Windows line ends is read with plain newlines, and
    one that is a directory cannot be read. *)
Example open_read_examples :
  Builtins.open_read
    {| cwd := FS.Dir [("README.md",
                       FS.File [Byte.x61; Byte.x0d; Byte.x0a; Byte.x62])];
       locale_encoding := Codec.UTF8; walk_depth := None |} "README.md"
  = Py.Ok (String "a" (String "010" "b"))
  /\ Builtins.open_read
       {| cwd := FS.Dir [("README.md", FS.Dir [])];
          locale_encoding := Codec.UTF8; walk_depth := None |} "README.md"
     = Py.Raise Py.IsADirectoryError.
Proof. split; reflexivity. Qed.

Example requirement_examples :
  Packaging.parse_requirement "click>=8.1.0"
  = Some ("click", [(Packaging.AtLeast, "8.1.0")])
  /\ Packaging.parse_requirement "click >= 8.1, < 9"
     = Some ("click", [(Packaging.AtLeast, "8.1"); (Packaging.Below, "9")])
  /\ Packaging.parse_requirement "click==8.1.*"
     = Some ("click", [(Packaging.Matching, "8.1.*")])
  /\ Packaging.parse_requirement "click" = Some ("click", [])
  /\ Packaging.parse_requirement ">=8" = None.
Proof. repeat split; reflexivity. Qed.

(** ** The literal declarations *)

(** Run the manifest in a hypothesis [H : setup_py e = Py.Ok a]: the read of
    README.md and the search for packages succeeded, and [a] is the record
    the script builds. *)
Ltac manifest H :=
  unfold setup_py in H;
  match type of H with
  | context [Builtins.open_read ?e "README.md"] =>
      destruct (Builtins.open_read e "README.md") as [?readme|] eqn:?Hread
  end;
  cbn [Py.bind] in H; [ | discriminate H ];
  match type of H with
  | context [Setuptools.find_packages ?e "python"] =>
      destruct (Setuptools.find_packages e "python") as [?found|] eqn:?Hfound
  end;
  cbn [Py.bind] in H;
  [ injection H as <- | discriminate H ].

(** C6: the manifest declares the package name "api-doc-gen-python" and the
    version "1.0.0". *)
Theorem name_and_version (e : env) (a : setup_args) :
  setup_py e = Py.Ok a ->
  name a = "api-doc-gen-python" /\ version a = "1.0.0".
Proof.
  intros H. manifest H. split; reflexivity.
Qed.

Lemma name_and_version_witness :
  exists a, setup_py env_readme_only = Py.Ok a
            /\ name a = "api-doc-gen-python" /\ version a = "1.0.0".
Proof.
  eexists. split.
  - reflexivity.
  - apply (name_and_version env_readme_only). reflexivity.
Defined.

(** C4: the runtime dependencies are exactly five requirements, on the
    distributions docstring-parser, pydoc-markdown, typing-extensions,
    pydantic and click. *)
Theorem runtime_dependencies (e : env) (a : setup_args) :
  setup_py e = Py.Ok a ->
  List.length (install_requires a) = 5
  /\ requirement_names (install_requires a)
     = Some ["docstring-parser"; "pydoc-markdown"; "typing-extensions";
             "pydantic"; "click"].
Proof.
  intros H. manifest H. split; reflexivity.
Qed.

Lemma runtime_dependencies_witness :
  exists a, setup_py env_with_package = Py.Ok a
            /\ List.length (install_requires a) = 5
            /\ requirement_names (install_requires a)
               = Some ["docstring-parser"; "pydoc-markdown";
                       "typing-extensions"; "pydantic"; "click"].
Proof.
  eexists. split.
  - reflexivity.
  - apply (runtime_dependencies env_with_package). reflexivity.
Defined.

(** C7: the only extra is "dev", and it consists of exactly seven
    requirements, on pytest, pytest-cov, black, flake8, mypy, isort and
    pre-commit. *)
Theorem dev_dependencies (e : env) (a : setup_args) :
  setup_py e = Py.Ok a ->
  map fst (extras_require a) = ["dev"]
  /\ List.length (extra "dev" (extras_require a)) = 7
  /\ requirement_names (extra "dev" (extras_require a))
     = Some ["pytest"; "pytest-cov"; "black"; "flake8"; "mypy"; "isort";
             "pre-commit"].
Proof.
  intros H. manifest H. repeat split; reflexivity.
Qed.

Lemma dev_dependencies_witness :
  exists a, setup_py env_readme_only = Py.Ok a
            /\ map fst (extras_require a) = ["dev"]
            /\ List.length (extra "dev" (extras_require a)) = 7
            /\ requirement_names (extra "dev" (extras_require a))
               = Some ["pytest"; "pytest-cov"; "black"; "flake8"; "mypy";
                       "isort"; "pre-commit"].
Proof.
  eexists. split.
  - reflexivity.
  - apply (dev_dependencies env_readme_only). reflexivity.
Defined.

(** C10: every requirement the manifest declares, in [install_requires] and
    in every extra, is a name with the single clause [>= version]: no upper
    bound, no pin, no exclusion. *)
Theorem dependencies_lower_bound_only (e : env) (a : setup_args) :
  setup_py e = Py.Ok a ->
  Forall lower_bound_only (declared_requirements a).
Proof.
  intros H. manifest H.
  unfold declared_requirements; cbn [install_requires extras_require
                                     flat_map snd app].
  repeat (apply Forall_cons; [ do 2 eexists; reflexivity | ]).
  apply Forall_nil.
Qed.

Lemma dependencies_lower_bound_only_witness :
  exists a, setup_py env_readme_only = Py.Ok a
            /\ Forall lower_bound_only (declared_requirements a).
Proof.
  eexists. split.
  - reflexivity.
  - apply (dependencies_lower_bound_only env_readme_only). reflexivity.
Defined.

(** ** Interpreter versions *)

Lemma at_least_3_9 (major minor patch : nat) :
  Packaging.satisfies [major; minor; patch] (Packaging.AtLeast, [3; 9]) = true
  <-> 3 < major \/ (major = 3 /\ 9 <= minor).
Proof.
  cbn [Packaging.satisfies Packaging.compare_release].
  destruct (Nat.compare_spec major 3) as [Hm | Hm | Hm].
  - destruct (Nat.compare_spec minor 9) as [Hn | Hn | Hn].
    + destruct (List.forallb (Nat.eqb 0) [patch]);
        (split; [ intros _; right; lia | reflexivity ]).
    + split; [ discriminate | lia ].
    + split; [ intros _; right; lia | reflexivity ].
  - split; [ discriminate | lia ].
  - split; [ intros _; left; lia | reflexivity ].
Qed.

(** C5: [python_requires] is the single clause [>=3.9], so an interpreter
    release is accepted exactly from 3.9 on; and the classifiers name, of
    the minor versions of Python 3, exactly 3.9, 3.10, 3.11 and 3.12. *)
Theorem python_versions (e : env) (a : setup_args) :
  setup_py e = Py.Ok a ->
  python_requires a = ">=3.9"
  /\ Packaging.parse_specifier_set (python_requires a)
     = Some [(Packaging.AtLeast, "3.9")]
  /\ (forall major minor patch,
        python_allowed a [major; minor; patch] = true
        <-> 3 < major \/ (major = 3 /\ 9 <= minor))
  /\ (forall minor,
        In [3; minor] (Packaging.classified_pythons (classifiers a))
        <-> 9 <= minor <= 12).
Proof.
  intros H. manifest H. repeat split.
  - change (python_allowed _ [major; minor; patch])
      with (Packaging.satisfies [major; minor; patch]
                                (Packaging.AtLeast, [3; 9]) && true).
    rewrite andb_true_r. apply at_least_3_9.
  - change (python_allowed _ [major; minor; patch])
      with (Packaging.satisfies [major; minor; patch]
                                (Packaging.AtLeast, [3; 9]) && true).
    rewrite andb_true_r. apply at_least_3_9.
  - change (Packaging.classified_pythons _)
      with [[3]; [3; 9]; [3; 10]; [3; 11]; [3; 12]] in H.
    cbn [In] in H.
    repeat (destruct H as [H | H];
            [ try discriminate H; injection H as <-; lia | ]).
    contradiction.
  - change (Packaging.classified_pythons _)
      with [[3]; [3; 9]; [3; 10]; [3; 11]; [3; 12]] in H.
    cbn [In] in H.
    repeat (destruct H as [H | H];
            [ try discriminate H; injection H as <-; lia | ]).
    contradiction.
  - intros [Hlo Hhi].
    change (Packaging.classified_pythons _)
      with [[3]; [3; 9]; [3; 10]; [3; 11]; [3; 12]].
    assert (Hm : minor = 9 \/ minor = 10 \/ minor = 11 \/ minor = 12) by lia.
    cbn [In].
    destruct Hm as [-> | [-> | [-> | ->]]]; auto 6.
Qed.

Lemma python_versions_witness :
  exists a, setup_py env_readme_only = Py.Ok a
            /\ python_requires a = ">=3.9"
            /\ python_allowed a [3; 8; 18] = false
            /\ python_allowed a [3; 9; 0] = true
            /\ In [3; 12] (Packaging.classified_pythons (classifiers a)).
Proof.
  eexists. split; [ reflexivity | ].
  destruct (python_versions env_readme_only _ eq_refl)
    as (Hreq & _ & _ & Hcls).
  split; [ exact Hreq | ].
  split; [ reflexivity | ].
  split; [ reflexivity | ].
  apply Hcls. lia.
Defined.

(** ** The entry point and the source supplied *)

(** C3: the manifest declares one entry-point group, [console_scripts],
    with one script: the command [api-doc-gen-python] for the function
    [main] of module [api_doc_gen_python.cli]; no file of the supplied
    source is that module, and none defines a function [main]. *)
Theorem single_console_script (e : env) (a : setup_args) :
  setup_py e = Py.Ok a ->
  map fst (entry_points a) = ["console_scripts"]
  /\ console_scripts a
     = Some [ {| Setuptools.ep_name := "api-doc-gen-python";
                 Setuptools.ep_module := "api_doc_gen_python.cli";
                 Setuptools.ep_attr := "main" |} ]
  /\ (forall ep, console_scripts a = Some [ep] ->
        provides Syntax.supplied_source ep = false)
  /\ (forall file, In file Syntax.supplied_source ->
        ~ In "main" (flat_map Syntax.functions_of (snd file))
        /\ ~ In "main" (flat_map Syntax.binds (snd file))).
Proof.
  intros H. manifest H. repeat split.
  - intros ep Hep. injection Hep as <-. reflexivity.
  - destruct H as [<- | []]. cbn. tauto.
  - destruct H as [<- | []]. cbn.
    intros [Hs | [Hf | []]]; discriminate.
Qed.

Lemma single_console_script_witness :
  exists a, setup_py env_with_package = Py.Ok a
            /\ map fst (entry_points a) = ["console_scripts"]
            /\ option_map (map Setuptools.ep_attr) (console_scripts a)
               = Some ["main"].
Proof.
  eexists. split; [ reflexivity | ].
  destruct (single_console_script env_with_package _ eq_refl)
    as (Hgroups & Hscripts & _).
  split; [ exact Hgroups | ].
  rewrite Hscripts. reflexivity.
Defined.

(** C8: the only source file is [python/setup.py]; it is an import followed
    by one call of [setup] without positional arguments, each keyword
    argument a literal or a direct call on literals; it defines no function
    and no class, and has no statement that branches, loops, assigns or
    returns. *)
Theorem source_is_one_setup_call :
  map fst Syntax.supplied_source = [["python"; "setup.py"]]
  /\ (exists kws,
        Syntax.setup_py_ast
        = [ Syntax.ImportFrom "setuptools" ["setup"; "find_packages"];
            Syntax.Expr (Syntax.Call (Syntax.Name "setup") [] kws) ]
        /\ Forall (fun kw => Syntax.is_literal (snd kw) = true
                             \/ Syntax.is_direct (snd kw) = true) kws)
  /\ (forall file, In file Syntax.supplied_source ->
        flat_map Syntax.functions_of (snd file) = []
        /\ flat_map Syntax.classes_of (snd file) = []
        /\ filter Syntax.is_logic (snd file) = []).
Proof.
  split; [ reflexivity | split ].
  - eexists. split; [ reflexivity | ].
    repeat (apply Forall_cons;
            [ first [ left; reflexivity | right; reflexivity ] | ]).
    apply Forall_nil.
  - intros file [<- | []]. repeat split.
Qed.

(** ** Trees and the package finder *)

Section NodeInduction.
Variable P : FS.node -> Prop.
Hypothesis leaf_case :
  forall n, (forall es, n <> FS.Dir es) -> P n.
Hypothesis dir_case :
  forall es, Forall (fun entry => P (snd entry)) es -> P (FS.Dir es).

Lemma node_rect_entries : forall n, P n.
Proof.
  fix IH 1. intros [data | es | |]; try (apply leaf_case; discriminate).
  apply dir_case.
  induction es as [| [k c] rest IHrest].
  - constructor.
  - constructor; [ apply IH | exact IHrest ].
Qed.
End NodeInduction.

Lemma assoc_In (k : string) (es : list (string * FS.node)) (n : FS.node) :
  FS.assoc k es = Some n -> In (k, n) es.
Proof.
  induction es as [| [k' c] rest IH]; cbn; [ discriminate | ].
  destruct (String.eqb_spec k' k) as [-> | _].
  - intros [= ->]. now left.
  - intros H. right. auto.
Qed.

Lemma In_assoc_distinct (k : string) (es : list (string * FS.node))
                        (n : FS.node) :
  FS.names_distinct es = true -> In (k, n) es -> FS.assoc k es = Some n.
Proof.
  induction es as [| [k' c] rest IH]; cbn; [ contradiction | ].
  destruct (FS.assoc k' rest) as [other |] eqn:Hrest; [ discriminate | ].
  intros Hd [[= -> ->] | Hin].
  - now rewrite String.eqb_refl.
  - destruct (String.eqb_spec k' k) as [-> | _]; [ | auto ].
    rewrite (IH Hd Hin) in Hrest. discriminate.
Qed.

Lemma wf_Dir (es : list (string * FS.node)) :
  FS.wf (FS.Dir es) = true ->
  FS.names_distinct es = true
  /\ forall entry, In entry es -> FS.wf (snd entry) = true.
Proof.
  cbn [FS.wf]. intros H. apply andb_prop in H as [Hd Hall].
  split; [ exact Hd | ].
  now apply forallb_forall.
Qed.

Lemma wf_lookup (path : list string) :
  forall n m, FS.wf n = true -> FS.lookup n path = Some m -> FS.wf m = true.
Proof.
  induction path as [| c rest IH]; intros n m Hwf; cbn.
  - now intros [= <-].
  - destruct n as [data | es | |]; try discriminate.
    destruct (FS.assoc c es) as [child |] eqn:Hc; [ | discriminate ].
    apply IH. apply assoc_In in Hc.
    apply wf_Dir in Hwf as [_ Hall]. exact (Hall _ Hc).
Qed.

Lemma lookup_app (p q : list string) :
  forall n,
    FS.lookup n (p ++ q)
    = match FS.lookup n p with
      | Some m => FS.lookup m q
      | None => None
      end.
Proof.
  induction p as [| c rest IH]; intros n; cbn; [ reflexivity | ].
  destruct n as [data | es | |]; try reflexivity.
  destruct (FS.assoc c es); [ apply IH | reflexivity ].
Qed.

(** In a leaf case of an induction on trees: the node is not a directory. *)
Ltac leaf_node n Hleaf :=
  let es := fresh "es" in
  destruct n as [? | es | |]; [ | now contradiction (Hleaf es) | | ].



(** ** Dotted names *)

Lemma append_snoc (acc : string) (c : ascii) (r : string) :
  String.append (String.append acc (String c "")) r
  = String.append acc (String c r).
Proof.
  induction acc as [| a acc IH]; cbn; [ reflexivity | now rewrite IH ].
Qed.

Lemma append_empty_r (s : string) : String.append s "" = s.
Proof.
  induction s as [| a s IH]; cbn; [ reflexivity | now rewrite IH ].
Qed.

Lemma split_aux_plain (sep : ascii) (s : string) :
  forall acc,
    Str.mem sep s = false ->
    Str.split_aux sep acc s = [String.append acc s].
Proof.
  induction s as [| c r IH]; intros acc; cbn.
  - now rewrite append_empty_r.
  - intros H. apply orb_false_iff in H as [Hc Hr].
    rewrite Hc, (IH _ Hr). now rewrite append_snoc.
Qed.

Lemma split_aux_sep (sep : ascii) (s t : string) :
  forall acc,
    Str.mem sep s = false ->
    Str.split_aux sep acc (String.append s (String sep t))
    = String.append acc s :: Str.split_aux sep "" t.
Proof.
  induction s as [| c r IH]; intros acc; cbn.
  - intros _. now rewrite Ascii.eqb_refl, append_empty_r.
  - intros H. apply orb_false_iff in H as [Hc Hr].
    rewrite Hc, (IH _ Hr). now rewrite append_snoc.
Qed.

(** [".".join(comps).split(".")] gives back [comps] when no component has a
    dot. *)
Lemma split_dotted (comps : list string) :
  comps <> [] ->
  Forall (fun c => Str.mem "." c = false) comps ->
  Str.split_on "." (Setuptools.dotted comps) = comps.
Proof.
  unfold Str.split_on, Setuptools.dotted.
  induction comps as [| c rest IH]; intros Hne Hall; [ congruence | ].
  inversion Hall as [| ? ? Hc Hrest]; subst.
  destruct rest as [| c' rest'].
  - cbn [String.concat]. now rewrite split_aux_plain.
  - change (String.concat "." (c :: c' :: rest'))
      with (String.append c
              (String "." (String.concat "." (c' :: rest')))).
    rewrite split_aux_sep by exact Hc.
    cbn [String.append]. f_equal. apply IH; [ discriminate | exact Hrest ].
Qed.

(** ** The walk of the package finder *)

Lemma collect_cons {A : Type} (r : Py.result (list A))
                   (rest : list (Py.result (list A))) (l : list A) :
  Setuptools.collect (r :: rest) = Py.Ok l ->
  exists x xs, r = Py.Ok x /\ Setuptools.collect rest = Py.Ok xs
               /\ l = x ++ xs.
Proof.
  cbn [Setuptools.collect]. destruct r as [x | ex]; [ | discriminate ].
  cbn [Py.bind].
  destruct (Setuptools.collect rest) as [xs | ex]; [ | discriminate ].
  cbn [Py.bind]. intros [= <-]. eauto.
Qed.

(** A walk that ends yields the names visited that [ALWAYS_EXCLUDE] lets
    through, in the order visited. *)
Lemma walk_Ok (n : FS.node) :
  forall depth rel l,
    Setuptools.walk depth rel n = Py.Ok l ->
    l = filter Setuptools.yields (Setuptools.candidates rel n).
Proof.
  induction n as [n Hleaf | es IH] using node_rect_entries;
    intros depth rel l H.
  - leaf_node n Hleaf; cbn in H; now injection H as <-.
  - cbn [Setuptools.walk Setuptools.candidates] in *.
    rewrite filter_app.
    match type of H with
    | context [Setuptools.collect ?rs] =>
        destruct (Setuptools.collect rs) as [below |] eqn:Hbelow;
          [ | discriminate ]
    end.
    cbn [Py.bind] in H. injection H as <-. f_equal.
    clear - IH Hbelow. revert below Hbelow.
    induction es as [| [d c] rest IHrest]; intros below Hbelow.
    + cbn in Hbelow. now injection Hbelow as <-.
    + inversion IH as [| ? ? Hc Hrest]; subst.
      cbn [map] in Hbelow.
      apply collect_cons in Hbelow as (x & xs & Hx & Hxs & ->).
      cbn [flat_map]. rewrite filter_app. f_equal; [ | now apply IHrest ].
      destruct (Setuptools.keeps (d, c)); [ | now injection Hx as <- ].
      cbn [fst snd] in *.
      destruct depth as [[| k] |]; [ discriminate | | ]; eauto.
Qed.

Lemma find_packages_Ok (e : env) (w : string) (l : list string) :
  Setuptools.find_packages e w = Py.Ok l ->
  l = filter Setuptools.yields (Setuptools.find_candidates e w).
Proof.
  unfold Setuptools.find_packages, Setuptools.find_candidates.
  destruct (FS.lookup (cwd e) [w]) as [n |].
  - apply walk_Ok.
  - now intros [= <-].
Qed.

(** What is found, when the search ends: the names visited that are not
    excluded. *)
Lemma found_iff (e : env) (w p : string) (l : list string) :
  Setuptools.find_packages e w = Py.Ok l ->
  In p l
  <-> In p (Setuptools.find_candidates e w)
      /\ Setuptools.always_exclude p = false.
Proof.
  intros H. rewrite (find_packages_Ok _ _ _ H), filter_In.
  unfold Setuptools.yields. now rewrite negb_true_iff.
Qed.

(** ** Failure of the manifest *)

(** C2 as stated fails: a build tree in which README.md is present and the
    manifest fails all the same, the file not being valid in the default
    encoding. *)
Lemma readme_present_manifest_fails :
  FS.isfile (FS.lookup (cwd env_undecodable) ["README.md"]) = true
  /\ setup_py env_undecodable = Py.Raise Py.UnicodeDecodeError
  /\ ~ (forall e, Py.succeeds (setup_py e) = false
                  <-> FS.lookup (cwd e) ["README.md"] = None).
Proof.
  split; [ reflexivity | split; [ reflexivity | ] ].
  intros H. specialize (H env_undecodable) as [H _].
  specialize (H eq_refl). discriminate H.
Qed.

(** C2, as the code has it: a missing README.md makes the manifest fail,
    with [FileNotFoundError]; whatever makes the read of README.md fail
    makes the manifest fail with the same error, before any package is
    searched; and a manifest that evaluates has read the bytes of a file
    README.md, and they were valid in the default encoding.  A missing
    README.md is not the only failure: README.md present and not valid in
    the encoding, README.md present and not readable by the process, and a
    package tree too deep for the walk of [find_packages] fail too. *)
Theorem missing_readme_is_one_failure_among_others :
  (forall e,
     FS.lookup (cwd e) ["README.md"] = None ->
     setup_py e = Py.Raise Py.FileNotFoundError)
  /\ (forall e x,
        Builtins.open_read e "README.md" = Py.Raise x ->
        setup_py e = Py.Raise x)
  /\ (forall e a,
        setup_py e = Py.Ok a ->
        exists data text,
          FS.lookup (cwd e) ["README.md"] = Some (FS.File data)
          /\ Codec.decode (locale_encoding e) data = Some text
          /\ long_description a = Codec.universal_newlines text)
  /\ setup_py env_undecodable = Py.Raise Py.UnicodeDecodeError
  /\ setup_py env_locked = Py.Raise Py.PermissionError
  /\ (Py.succeeds (Builtins.open_read env_shallow_stack "README.md") = true
      /\ setup_py env_shallow_stack = Py.Raise Py.RecursionError).
Proof.
  split; [ | split; [ | split ] ].
  - intros e Hmissing. unfold setup_py, Builtins.open_read.
    now rewrite Hmissing.
  - intros e x Hread. unfold setup_py. now rewrite Hread.
  - intros e a H. manifest H. cbn [long_description].
    unfold Builtins.open_read in Hread.
    destruct (FS.lookup (cwd e) ["README.md"]) as [[data | es | |] |];
      try discriminate.
    destruct (Codec.decode (locale_encoding e) data) as [text |] eqn:Hdec;
      [ | discriminate ].
    injection Hread as <-. exists data, text. now repeat split.
  - repeat split; reflexivity.
Qed.

(** ** What the arguments depend on *)

(** C9 as stated fails: two build trees with the same README.md and the
    same encoding, whose manifests differ, because [packages] is computed
    from the tree. *)
Lemma same_readme_different_arguments :
  FS.lookup (cwd env_readme_only) ["README.md"]
  = FS.lookup (cwd env_with_package) ["README.md"]
  /\ locale_encoding env_readme_only = locale_encoding env_with_package
  /\ setup_py env_readme_only <> setup_py env_with_package
  /\ ~ (forall e1 e2 data,
          locale_encoding e1 = locale_encoding e2 ->
          FS.lookup (cwd e1) ["README.md"] = Some (FS.File data) ->
          FS.lookup (cwd e2) ["README.md"] = Some (FS.File data) ->
          setup_py e1 = setup_py e2).
Proof.
  split; [ reflexivity | split; [ reflexivity | split ] ].
  - discriminate.
  - intros H.
    specialize (H env_readme_only env_with_package _ eq_refl eq_refl eq_refl).
    discriminate H.
Qed.

(** C9, as the code has it: the arguments of [setup] are a function of the
    text read from README.md and of the packages found under [python/]: two
    runs with the same default encoding, the same README.md and the same
    packages found pass identical arguments; [long_description] is the text
    read from README.md, [packages] is what the finder returns, and every
    other argument is the same literal in every run. *)
Theorem manifest_determined_by_readme_and_packages (e1 e2 : env) :
  locale_encoding e1 = locale_encoding e2 ->
  FS.lookup (cwd e1) ["README.md"] = FS.lookup (cwd e2) ["README.md"] ->
  Setuptools.find_packages e1 "python" = Setuptools.find_packages e2 "python" ->
  setup_py e1 = setup_py e2
  /\ (forall a, setup_py e1 = Py.Ok a ->
        Builtins.open_read e1 "README.md" = Py.Ok (long_description a)
        /\ Setuptools.find_packages e1 "python" = Py.Ok (packages a))
  /\ (forall e a a', setup_py e1 = Py.Ok a -> setup_py e = Py.Ok a' ->
        literal_arguments a = literal_arguments a').
Proof.
  intros Henc Hreadme Hfound. split; [ | split ].
  - unfold setup_py, Builtins.open_read.
    rewrite Henc, Hreadme, Hfound. reflexivity.
  - intros a H. manifest H. split; reflexivity.
  - intros e a a' H H'. manifest H. manifest H'. reflexivity.
Qed.

Lemma manifest_determined_witness :
  cwd env_with_package <> cwd env_with_licence
  /\ setup_py env_with_package = setup_py env_with_licence.
Proof.
  split; [ discriminate | ].
  apply (manifest_determined_by_readme_and_packages
           env_with_package env_with_licence); reflexivity.
Defined.

(** ** Consistency of the metadata with the build tree *)

Lemma looks_like_package_init (m : FS.node) :
  Setuptools.looks_like_package m = FS.isfile (FS.lookup m ["__init__.py"]).
Proof.
  destruct m as [data | es | |]; cbn; try reflexivity.
  destruct (FS.assoc "__init__.py" es); reflexivity.
Qed.







(** A module [cli] that binds no [main] does not make the metadata
    consistent, though its package is found. *)
Example cli_without_main_not_consistent :
  exists a, setup_py env_cli_without_main = Py.Ok a
            /\ In "api_doc_gen_python" (packages a)
            /\ metadata_consistent example_binds env_cli_without_main a
               = false.
Proof.
  eexists. split; [ reflexivity | split ]; [ now left | reflexivity ].
Qed.

(* ================================================================== *)
(** * Further properties of the manifest *)

(** ** The text of [long_description] *)

Lemma universal_newlines_no_cr_bounded (n : nat) :
  forall s, String.length s <= n ->
            Str.mem "013" (Codec.universal_newlines s) = false.
Proof.
  induction n as [| n IH]; intros [| c r] Hlen; cbn in Hlen |- *;
    try reflexivity; try lia.
  destruct (Ascii.eqb c "013") eqn:Hc.
  - destruct r as [| c' r']; [ reflexivity | ].
    cbn in Hlen.
    destruct (Ascii.eqb c' "010"); cbn [Str.mem];
      change (Ascii.eqb "010" "013") with false; cbn [orb];
      apply IH; cbn [String.length]; lia.
  - cbn [Str.mem]. rewrite Hc. apply IH. lia.
Qed.

Lemma universal_newlines_plain (s : string) :
  Str.mem "013" s = false -> Codec.universal_newlines s = s.
Proof.
  induction s as [| c r IH]; cbn; [ reflexivity | ].
  intros H. apply orb_false_iff in H as [Hc Hr].
  rewrite Hc. now rewrite IH.
Qed.

(** X1: whatever README.md holds, the [long_description] that reaches
    [setup] has no carriage return: text mode reads CR LF and a lone CR as
    a newline. *)
Theorem long_description_has_no_cr (e : env) (a : setup_args) :
  setup_py e = Py.Ok a ->
  Str.mem "013" (long_description a) = false.
Proof.
  intros H. manifest H. cbn [long_description].
  unfold Builtins.open_read in Hread.
  destruct (FS.lookup (cwd e) ["README.md"]) as [[data | es | |] |];
    try discriminate.
  destruct (Codec.decode (locale_encoding e) data) as [s |];
    [ | discriminate ].
  injection Hread as <-.
  now apply (universal_newlines_no_cr_bounded (String.length s)).
Qed.

Lemma long_description_has_no_cr_witness :
  exists a, setup_py env_crlf = Py.Ok a
            /\ long_description a = String "a" (String "010" "b")
            /\ Str.mem "013" (long_description a) = false.
Proof.
  eexists. split; [ reflexivity | split; [ reflexivity | ] ].
  apply (long_description_has_no_cr env_crlf). reflexivity.
Defined.

(** X2: when the default encoding is UTF-8 or ASCII and README.md has no
    carriage return, a manifest that evaluates passes the bytes of
    README.md, unchanged, as [long_description]. *)
Theorem long_description_verbatim (e : env) (a : setup_args)
                                  (data : list byte) :
  locale_encoding e <> Codec.Latin1 ->
  FS.lookup (cwd e) ["README.md"] = Some (FS.File data) ->
  Str.mem "013" (Codec.of_bytes (octets data)) = false ->
  setup_py e = Py.Ok a ->
  long_description a = Codec.of_bytes (octets data).
Proof.
  intros Henc Hfile Hcr H. manifest H. cbn [long_description].
  unfold Builtins.open_read in Hread. rewrite Hfile in Hread.
  unfold Codec.decode in Hread. fold (octets data) in Hread.
  destruct (locale_encoding e); [ | congruence | ].
  - destruct (Codec.utf8_valid (octets data)); [ | discriminate ].
    injection Hread as <-. now apply universal_newlines_plain.
  - destruct (List.forallb _ (octets data)); [ | discriminate ].
    injection Hread as <-. now apply universal_newlines_plain.
Qed.

Lemma long_description_verbatim_witness :
  exists a, setup_py env_readme_only = Py.Ok a
            /\ long_description a = "# API doc generator".
Proof.
  eexists. split; [ reflexivity | ].
  apply (long_description_verbatim env_readme_only _
           (bytes "# API doc generator")).
  - discriminate.
  - reflexivity.
  - reflexivity.
  - reflexivity.
Defined.

Lemma ascii_is_utf8 (bs : list N) :
  List.forallb (fun b => b <? 128)%N bs = true -> Codec.utf8_valid bs = true.
Proof.
  induction bs as [| b r IH]; cbn; [ reflexivity | ].
  intros H. apply andb_prop in H as [Hb Hr]. now rewrite Hb, IH.
Qed.

Lemma ascii_is_latin1 (bs : list N) :
  List.forallb (fun b => b <? 128)%N bs = true ->
  flat_map Codec.latin1_char bs = bs.
Proof.
  induction bs as [| b r IH]; cbn; [ reflexivity | ].
  intros H. apply andb_prop in H as [Hb Hr].
  unfold Codec.latin1_char at 1. rewrite Hb. cbn. now rewrite IH.
Qed.

Lemma decode_ascii (enc : Codec.encoding) (data : list byte) :
  List.forallb (fun b => b <? 128)%N (octets data) = true ->
  Codec.decode enc data = Some (Codec.of_bytes (octets data)).
Proof.
  intros H. unfold Codec.decode. fold (octets data). destruct enc.
  - now rewrite ascii_is_utf8.
  - now rewrite ascii_is_latin1.
  - now rewrite H.
Qed.

Lemma collect_raises {A : Type} (rs : list (Py.result (list A)))
                     (x : Py.exn) :
  Setuptools.collect rs = Py.Raise x -> In (Py.Raise x) rs.
Proof.
  induction rs as [| r rest IH]; cbn [Setuptools.collect]; [ discriminate | ].
  destruct r as [l | ex]; cbn [Py.bind].
  - destruct (Setuptools.collect rest) as [ls | ex]; cbn [Py.bind];
      [ discriminate | ].
    intros [= ->]. right. now apply IH.
  - intros [= ->]. now left.
Qed.

(** The walk fails in one way only. *)
Lemma walk_raises (n : FS.node) :
  forall depth rel x,
    Setuptools.walk depth rel n = Py.Raise x -> x = Py.RecursionError.
Proof.
  induction n as [n Hleaf | es IH] using node_rect_entries;
    intros depth rel x H.
  - leaf_node n Hleaf; discriminate.
  - cbn [Setuptools.walk] in H.
    match type of H with
    | context [Setuptools.collect ?rs] =>
        destruct (Setuptools.collect rs) as [below |] eqn:Hbelow;
          [ discriminate | ]
    end.
    cbn [Py.bind] in H. injection H as ->.
    apply collect_raises in Hbelow.
    apply in_map_iff in Hbelow as ([d c] & Hr & Hin).
    rewrite Forall_forall in IH. specialize (IH _ Hin).
    destruct (Setuptools.keeps (d, c)); [ | discriminate ].
    cbn [fst snd] in *.
    destruct depth as [[| k] |]; [ now injection Hr as <- | | ]; eauto.
Qed.

Lemma find_packages_raises (e : env) (w : string) (x : Py.exn) :
  Setuptools.find_packages e w = Py.Raise x -> x = Py.RecursionError.
Proof.
  unfold Setuptools.find_packages.
  destruct (FS.lookup (cwd e) [w]) as [n |]; [ apply walk_raises | ].
  discriminate.
Qed.

(** X3: for a README.md that is a regular, readable file, the outcome of
    the manifest is the same under every default encoding exactly when
    README.md holds ASCII bytes only: [open] is called without an
    [encoding] argument. *)
Theorem ascii_readme_iff_locale_independent
        (tree : FS.node) (data : list byte) (depth : option nat) :
  FS.lookup tree ["README.md"] = Some (FS.File data) ->
  (forall enc1 enc2,
     setup_py {| cwd := tree; locale_encoding := enc1; walk_depth := depth |}
     = setup_py {| cwd := tree; locale_encoding := enc2;
                   walk_depth := depth |})
  <-> List.forallb (fun b => b <? 128)%N (octets data) = true.
Proof.
  intros Hfile. split.
  - intros Hsame.
    destruct (List.forallb (fun b => b <? 128)%N (octets data)) eqn:Hascii;
      [ reflexivity | exfalso ].
    specialize (Hsame Codec.ASCII Codec.Latin1).
    unfold setup_py, Builtins.open_read in Hsame.
    cbn [cwd locale_encoding] in Hsame. rewrite Hfile in Hsame.
    unfold Codec.decode in Hsame. fold (octets data) in Hsame.
    rewrite Hascii in Hsame. cbn [Py.bind] in Hsame.
    match type of Hsame with
    | context [Setuptools.find_packages ?e "python"] =>
        destruct (Setuptools.find_packages e "python") as [found | x] eqn:Hfound
    end; cbn [Py.bind] in Hsame; [ discriminate | ].
    apply find_packages_raises in Hfound. congruence.
  - intros Hascii enc1 enc2.
    unfold setup_py, Builtins.open_read, Setuptools.find_packages.
    cbn [cwd locale_encoding walk_depth]. rewrite Hfile.
    now rewrite !(decode_ascii _ _ Hascii).
Qed.

Lemma ascii_readme_iff_locale_independent_witness :
  setup_py {| cwd := tree_with_package; locale_encoding := Codec.UTF8;
              walk_depth := None |}
  = setup_py {| cwd := tree_with_package; locale_encoding := Codec.Latin1;
                walk_depth := None |}.
Proof.
  apply (ascii_readme_iff_locale_independent tree_with_package
           (bytes "# API doc generator") None eq_refl).
  reflexivity.
Defined.

(** ** The packages found *)

Lemma split_aux_nonempty (sep : ascii) (s : string) :
  forall acc, Str.split_aux sep acc s <> [].
Proof.
  induction s as [| c r IH]; intros acc; cbn; [ discriminate | ].
  destruct (Ascii.eqb c sep); [ discriminate | apply IH ].
Qed.

(** [".".join(s.split("."))] is [s]. *)
Lemma join_split_aux (s : string) :
  forall acc,
    String.concat "." (Str.split_aux "." acc s) = String.append acc s.
Proof.
  induction s as [| c r IH]; intros acc; cbn [Str.split_aux].
  - cbn. now rewrite append_empty_r.
  - destruct (Ascii.eqb_spec c ".") as [-> | _].
    + specialize (IH "").
      destruct (Str.split_aux "." "" r) as [| x xs] eqn:Hsplit;
        [ now apply split_aux_nonempty in Hsplit | ].
      change (String.concat "." (acc :: x :: xs))
        with (String.append acc (String "." (String.concat "." (x :: xs)))).
      now rewrite IH.
    + rewrite IH. apply append_snoc.
Qed.

Lemma lookup_single (n c : FS.node) (d : string) :
  FS.lookup n [d] = Some c ->
  exists es, n = FS.Dir es /\ FS.assoc d es = Some c.
Proof.
  destruct n as [data | es | |]; cbn; try discriminate.
  destruct (FS.assoc d es) as [child |] eqn:Hd; [ | discriminate ].
  intros [= ->]. exists es. split; [ reflexivity | exact Hd ].
Qed.

Lemma assoc_lookup_single (es : list (string * FS.node)) (d : string) :
  FS.lookup (FS.Dir es) [d] = FS.assoc d es.
Proof.
  cbn. destruct (FS.assoc d es); reflexivity.
Qed.

Lemma package_chain_nodot (comps : list string) :
  forall n, package_chain n comps = true ->
            Forall (fun c => Str.mem "." c = false) comps.
Proof.
  induction comps as [| d rest IH]; intros n; [ constructor | ].
  cbn [package_chain]. intros H. apply andb_prop in H as [Hdot H].
  destruct (FS.lookup n [d]) as [c |]; [ | discriminate ].
  apply andb_prop in H as [_ Hrest].
  constructor; [ now apply negb_true_iff | eauto ].
Qed.

Lemma package_chain_prefix (p q : list string) :
  forall n, package_chain n (p ++ q) = true -> package_chain n p = true.
Proof.
  induction p as [| d rest IH]; intros n; [ reflexivity | ].
  cbn [package_chain app]. intros H. apply andb_prop in H as [Hdot H].
  rewrite Hdot. destruct (FS.lookup n [d]) as [c |]; [ | discriminate ].
  apply andb_prop in H as [Hpkg Hrest].
  now rewrite Hpkg, (IH _ Hrest).
Qed.

Lemma candidates_chain (n : FS.node) :
  forall rel p,
    FS.wf n = true ->
    In p (Setuptools.candidates rel n) ->
    exists comps,
      comps <> [] /\ package_chain n comps = true
      /\ p = Setuptools.dotted (rel ++ comps).
Proof.
  induction n as [n Hleaf | es IH] using node_rect_entries;
    intros rel p Hwf Hin.
  - leaf_node n Hleaf; contradiction.
  - apply wf_Dir in Hwf as [Hd Hall].
    cbn [Setuptools.candidates] in Hin.
    apply in_app_or in Hin as [Hin | Hin].
    + apply in_map_iff in Hin as ([d c] & <- & Hin).
      apply filter_In in Hin as [Hin Hk].
      apply andb_prop in Hk as [Hdot Hpkg]. cbn [fst snd] in *.
      exists [d]. repeat split; [ discriminate | ].
      cbn [package_chain]. rewrite assoc_lookup_single.
      now rewrite Hdot, (In_assoc_distinct _ _ _ Hd Hin), Hpkg.
    + apply in_flat_map in Hin as ([d c] & Hin & Hp).
      destruct (Setuptools.keeps (d, c)) eqn:Hk; [ | contradiction ].
      apply andb_prop in Hk as [Hdot Hpkg]. cbn [fst snd] in *.
      rewrite Forall_forall in IH.
      destruct (IH _ Hin _ _ (Hall _ Hin) Hp) as (comps & Hne & Hchain & ->).
      cbn [snd] in Hchain.
      exists (d :: comps). repeat split; [ discriminate | | ].
      * cbn [package_chain]. rewrite assoc_lookup_single.
        now rewrite Hdot, (In_assoc_distinct _ _ _ Hd Hin), Hpkg, Hchain.
      * now rewrite <- app_assoc.
Qed.

Lemma chain_candidates (comps : list string) :
  forall n rel,
    comps <> [] ->
    package_chain n comps = true ->
    In (Setuptools.dotted (rel ++ comps)) (Setuptools.candidates rel n).
Proof.
  induction comps as [| d rest IH]; intros n rel Hne Hchain; [ congruence | ].
  cbn [package_chain] in Hchain. apply andb_prop in Hchain as [Hdot H].
  destruct (FS.lookup n [d]) as [c |] eqn:Hc; [ | discriminate ].
  apply andb_prop in H as [Hpkg Hrest].
  apply lookup_single in Hc as (es & -> & Hc). apply assoc_In in Hc.
  assert (Hk : Setuptools.keeps (d, c) = true)
    by (unfold Setuptools.keeps; cbn [fst snd]; now rewrite Hdot, Hpkg).
  cbn [Setuptools.candidates]. apply in_or_app.
  destruct rest as [| d' rest'].
  - left. apply in_map_iff. exists (d, c). split; [ reflexivity | ].
    now apply filter_In.
  - right. apply in_flat_map. exists (d, c). split; [ exact Hc | ].
    rewrite Hk. cbn [fst snd].
    replace (rel ++ d :: d' :: rest') with ((rel ++ [d]) ++ d' :: rest')
      by now rewrite <- app_assoc.
    apply IH; [ discriminate | exact Hrest ].
Qed.

Lemma find_candidates_chain (e : env) (w p : string) :
  FS.wf (cwd e) = true ->
  In p (Setuptools.find_candidates e w)
  <-> exists n, FS.lookup (cwd e) [w] = Some n
                /\ package_chain n (Str.split_on "." p) = true.
Proof.
  intros Hwf. unfold Setuptools.find_candidates. split.
  - destruct (FS.lookup (cwd e) [w]) as [n |] eqn:Hw; [ | contradiction ].
    intros Hin.
    destruct (candidates_chain n [] p (wf_lookup _ _ _ Hwf Hw) Hin)
      as (comps & Hne & Hchain & ->).
    exists n. split; [ reflexivity | ]. cbn [app].
    now rewrite (split_dotted _ Hne (package_chain_nodot _ _ Hchain)).
  - intros (n & -> & Hchain).
    pose proof (chain_candidates _ n [] (split_aux_nonempty _ _ _) Hchain)
      as Hin.
    cbn [app] in Hin. unfold Setuptools.dotted, Str.split_on in Hin.
    now rewrite join_split_aux in Hin.
Qed.



(** X5: a declared package brings its parents, as far as their names are
    not excluded: when [a.b.c] is among the packages, so are [a.b] and [a],
    unless the name is [ez_setup] or ends in [__pycache__]. *)
Theorem packages_closed_under_yielded_parents
        (e : env) (a : setup_args) (p : string) (parent rest : list string) :
  FS.wf (cwd e) = true ->
  setup_py e = Py.Ok a ->
  In p (packages a) ->
  Str.split_on "." p = parent ++ rest ->
  parent <> [] ->
  Setuptools.always_exclude (Setuptools.dotted parent) = false ->
  In (Setuptools.dotted parent) (packages a).
Proof.
  intros Hwf H Hin Hsplit Hne Hyield. manifest H. cbn [packages] in *.
  apply (found_iff _ _ _ _ Hfound) in Hin as [Hin _].
  apply (found_iff _ _ _ _ Hfound). split; [ | exact Hyield ].
  apply (find_candidates_chain _ _ _ Hwf) in Hin as (n & Hn & Hchain).
  rewrite Hsplit in Hchain. apply package_chain_prefix in Hchain.
  unfold Setuptools.find_candidates. rewrite Hn.
  exact (chain_candidates parent n [] Hne Hchain).
Qed.

Lemma packages_closed_under_yielded_parents_witness :
  exists a, setup_py env_with_package = Py.Ok a
            /\ In "api_doc_gen_python" (packages a).
Proof.
  eexists. split; [ reflexivity | ].
  apply (packages_closed_under_yielded_parents env_with_package _
           "api_doc_gen_python.parsers" ["api_doc_gen_python"] ["parsers"]).
  - reflexivity.
  - reflexivity.
  - cbn. auto.
  - reflexivity.
  - discriminate.
  - reflexivity.
Defined.

Lemma walk_nothing_kept (es : list (string * FS.node)) (depth : option nat)
                        (rel : list string) :
  (forall entry, In entry es -> Setuptools.keeps entry = false) ->
  Setuptools.walk depth rel (FS.Dir es) = Py.Ok [].
Proof.
  intros Hnone. cbn [Setuptools.walk].
  assert (Hfilter : filter Setuptools.keeps es = []).
  { induction es as [| entry rest IH]; [ reflexivity | ].
    cbn [filter]. rewrite (Hnone entry (or_introl eq_refl)).
    apply IH. intros x Hx. apply Hnone. now right. }
  rewrite Hfilter. cbn [map filter app].
  assert (Hbelow : forall f,
             (forall entry, In entry es -> f entry = Py.Ok []) ->
             Setuptools.collect (map f es) = Py.Ok (@nil string)).
  { intros f Hf. clear Hfilter Hnone.
    induction es as [| entry rest IH]; [ reflexivity | ].
    cbn [map Setuptools.collect].
    rewrite (Hf entry (or_introl eq_refl)). cbn [Py.bind].
    rewrite IH; [ reflexivity | ]. intros x Hx. apply Hf. now right. }
  rewrite Hbelow; [ reflexivity | ].
  intros entry Hin. now rewrite (Hnone entry Hin).
Qed.

(** X6: when [python/] has no sub-directory, named without a dot, that
    holds [__init__.py] (a missing [python/] is such a case), the search
    for packages cannot fail and finds nothing: if README.md can be read,
    the manifest evaluates, and passes [packages=[]]. *)
Theorem no_top_level_package_no_package (e : env) (text : Py.str) :
  FS.wf (cwd e) = true ->
  (forall d, Str.mem "." d = false ->
     FS.isfile (FS.lookup (cwd e) ["python"; d; "__init__.py"]) = false) ->
  Builtins.open_read e "README.md" = Py.Ok text ->
  exists a, setup_py e = Py.Ok a
            /\ packages a = []
            /\ long_description a = text.
Proof.
  intros Hwf Hnone Hread.
  assert (Hfound : Setuptools.find_packages e "python" = Py.Ok []).
  { unfold Setuptools.find_packages.
    destruct (FS.lookup (cwd e) ["python"]) as [n |] eqn:Hn;
      [ | reflexivity ].
    destruct n as [data | es | |]; try reflexivity.
    apply walk_nothing_kept. intros [d c] Hin.
    destruct (Setuptools.keeps (d, c)) eqn:Hk; [ exfalso | reflexivity ].
    apply andb_prop in Hk as [Hdot Hpkg]. cbn [fst snd] in *.
    apply negb_true_iff in Hdot.
    pose proof (wf_lookup _ _ _ Hwf Hn) as Hwfn.
    apply wf_Dir in Hwfn as [Hd _].
    specialize (Hnone d Hdot).
    change ["python"; d; "__init__.py"]
      with (["python"] ++ [d] ++ ["__init__.py"]) in Hnone.
    rewrite lookup_app, Hn, lookup_app, assoc_lookup_single in Hnone.
    rewrite (In_assoc_distinct _ _ _ Hd Hin) in Hnone.
    rewrite <- looks_like_package_init in Hnone. congruence. }
  unfold setup_py. rewrite Hread, Hfound. cbn [Py.bind].
  eexists. split; [ reflexivity | split; reflexivity ].
Qed.

Lemma no_top_level_package_no_package_witness :
  exists a, setup_py env_readme_only = Py.Ok a /\ packages a = [].
Proof.
  destruct (no_top_level_package_no_package env_readme_only
              "# API doc generator") as (a & Ha & Hp & _).
  - reflexivity.
  - intros d _. reflexivity.
  - reflexivity.
  - exists a. now split.
Defined.

(** ** Version constraints *)

Lemma compare_release_nil_r (a : list nat) :
  Packaging.compare_release a []
  = if List.forallb (Nat.eqb 0) a then Eq else Gt.
Proof.
  destruct a; reflexivity.
Qed.

Lemma compare_release_zeros_l (a : list nat) :
  forall b, List.forallb (Nat.eqb 0) a = true ->
            Packaging.compare_release a b = Packaging.compare_release [] b.
Proof.
  induction a as [| x a' IH]; intros b Hz; [ reflexivity | ].
  cbn [List.forallb] in Hz. apply andb_prop in Hz as [Hx Ha'].
  apply Nat.eqb_eq in Hx. subst x.
  destruct b as [| y b'].
  - rewrite compare_release_nil_r.
    cbn [List.forallb]. now rewrite Ha'.
  - cbn [Packaging.compare_release List.forallb].
    destruct y as [| y']; cbn [Nat.compare Nat.eqb andb]; [ | reflexivity ].
    rewrite (IH _ Ha'). reflexivity.
Qed.

Lemma compare_release_zeros_r (b : list nat) :
  forall a, List.forallb (Nat.eqb 0) b = true ->
            Packaging.compare_release a b = Packaging.compare_release a [].
Proof.
  induction b as [| y b' IH]; intros a Hz; [ reflexivity | ].
  cbn [List.forallb] in Hz. apply andb_prop in Hz as [Hy Hb'].
  apply Nat.eqb_eq in Hy. subst y.
  destruct a as [| x a'].
  - cbn [Packaging.compare_release List.forallb]. now rewrite Hb'.
  - cbn [Packaging.compare_release List.forallb].
    destruct x as [| x']; cbn [Nat.compare Nat.eqb andb]; [ | reflexivity ].
    rewrite (IH _ Hb'), compare_release_nil_r. reflexivity.
Qed.

Lemma release_ge_nil_l (b : list nat) :
  release_ge [] b -> List.forallb (Nat.eqb 0) b = true.
Proof.
  unfold release_ge. cbn [Packaging.compare_release].
  destruct (List.forallb (Nat.eqb 0) b); [ reflexivity | ].
  intros H. now contradiction H.
Qed.

Lemma release_ge_trans (a : list nat) :
  forall b c, release_ge a b -> release_ge b c -> release_ge a c.
Proof.
  induction a as [| x a' IH]; intros b c Hab Hbc.
  - apply release_ge_nil_l in Hab.
    unfold release_ge in *. now rewrite (compare_release_zeros_l _ _ Hab) in Hbc.
  - destruct b as [| y b'].
    + apply release_ge_nil_l in Hbc.
      unfold release_ge. rewrite (compare_release_zeros_r _ _ Hbc).
      rewrite compare_release_nil_r.
      destruct (List.forallb (Nat.eqb 0) (x :: a')); discriminate.
    + destruct c as [| z c'].
      * unfold release_ge. rewrite compare_release_nil_r.
        destruct (List.forallb (Nat.eqb 0) (x :: a')); discriminate.
      * unfold release_ge in *. cbn [Packaging.compare_release] in *.
        destruct (Nat.compare_spec x y) as [Hxy | Hxy | Hxy];
          [ | congruence | ];
          destruct (Nat.compare_spec y z) as [Hyz | Hyz | Hyz];
          try congruence;
          destruct (Nat.compare_spec x z) as [Hxz | Hxz | Hxz];
          try lia; try discriminate.
        exact (IH _ _ Hab Hbc).
Qed.

Lemma at_least_iff (v w : list nat) :
  Packaging.satisfies v (Packaging.AtLeast, w) = true <-> release_ge v w.
Proof.
  unfold release_ge. cbn [Packaging.satisfies].
  destruct (Packaging.compare_release v w); split;
    congruence || discriminate || reflexivity.
Qed.

Lemma lower_bound_allows (req dist t : string) (w v : list nat) :
  Packaging.parse_requirement req = Some (dist, [(Packaging.AtLeast, t)]) ->
  Packaging.parse_release t = Some w ->
  requirement_allows req v = true <-> release_ge v w.
Proof.
  intros Hreq Hrel. unfold requirement_allows, clauses_allow.
  rewrite Hreq. cbn [List.forallb fst snd]. rewrite Hrel, andb_true_r.
  apply at_least_iff.
Qed.

Lemma declared_bounds (e : env) (a : setup_args) (req : string) :
  setup_py e = Py.Ok a ->
  In req (declared_requirements a) ->
  exists dist t w,
    Packaging.parse_requirement req = Some (dist, [(Packaging.AtLeast, t)])
    /\ Packaging.parse_release t = Some w
    /\ t = show_release w
    /\ req = String.append dist (String.append ">=" t).
Proof.
  intros H Hin. manifest H.
  unfold declared_requirements in Hin;
    cbn [install_requires extras_require flat_map snd app In] in Hin.
  repeat (destruct Hin as [<- | Hin];
          [ do 3 eexists; repeat split; reflexivity | ]).
  contradiction.
Qed.

(** X7: every requirement the manifest declares reads [name>=version], and
    is satisfied exactly by the releases that are at least the version
    written (compared number by number, the shorter padded with zeros); so
    a release that satisfies it keeps doing so when replaced by any later
    one: no declared dependency caps or excludes a newer release. *)
Theorem declared_requirements_upward_closed
        (e : env) (a : setup_args) (req : string) :
  setup_py e = Py.Ok a ->
  In req (declared_requirements a) ->
  (exists dist w,
     req = String.append dist (String.append ">=" (show_release w))
     /\ forall v, requirement_allows req v = true <-> release_ge v w)
  /\ (forall v v', requirement_allows req v = true -> release_ge v' v ->
                   requirement_allows req v' = true).
Proof.
  intros H Hin.
  destruct (declared_bounds e a req H Hin)
    as (dist & t & w & Hreq & Hrel & Ht & Hwritten).
  split.
  - exists dist, w. split; [ now rewrite <- Ht | ].
    intros v. exact (lower_bound_allows _ _ _ _ v Hreq Hrel).
  - intros v v' Hv Hge.
    apply (lower_bound_allows _ _ _ _ v Hreq Hrel) in Hv.
    apply (lower_bound_allows _ _ _ _ v' Hreq Hrel).
    exact (release_ge_trans _ _ _ Hge Hv).
Qed.

Lemma declared_requirements_upward_closed_witness :
  exists a, setup_py env_readme_only = Py.Ok a
            /\ requirement_allows "pydantic>=2.4.0" [2; 3; 9] = false
            /\ requirement_allows "pydantic>=2.4.0" [2; 4] = true
            /\ requirement_allows "pydantic>=2.4.0" [3; 0; 1] = true.
Proof.
  eexists. split; [ reflexivity | ].
  split; [ reflexivity | ]. split; [ reflexivity | ].
  destruct (declared_requirements_upward_closed
              env_readme_only _ "pydantic>=2.4.0" eq_refl) as [_ Hup].
  - cbn. auto 6.
  - apply (Hup [2; 4] [3; 0; 1]); [ reflexivity | discriminate ].
Defined.

Lemma python_allowed_at_least (a : setup_args) (v : list nat) :
  python_requires a = ">=3.9" ->
  python_allowed a v = true <-> release_ge v [3; 9].
Proof.
  intros Hreq. unfold python_allowed. rewrite Hreq.
  change (Packaging.parse_specifier_set ">=3.9")
    with (Some [(Packaging.AtLeast, "3.9")]).
  cbn [List.forallb fst snd].
  change (Packaging.parse_release "3.9") with (Some [3; 9]).
  rewrite andb_true_r. apply at_least_iff.
Qed.

(** X8: [python_requires] accepts exactly the interpreter releases that are
    at least 3.9, whatever their number of segments (3.9, 3.9.0, 3.10.2,
    4), and so accepts every release later than one it accepts. *)
Theorem python_requires_upward_closed (e : env) (a : setup_args) :
  setup_py e = Py.Ok a ->
  (forall v, python_allowed a v = true <-> release_ge v [3; 9])
  /\ (forall v v', python_allowed a v = true -> release_ge v' v ->
                   python_allowed a v' = true).
Proof.
  intros H.
  assert (Hreq : python_requires a = ">=3.9") by (manifest H; reflexivity).
  split.
  - intros v. now apply python_allowed_at_least.
  - intros v v' Hv Hge.
    apply (python_allowed_at_least _ _ Hreq).
    apply (python_allowed_at_least _ _ Hreq) in Hv.
    exact (release_ge_trans _ _ _ Hge Hv).
Qed.

Lemma python_requires_upward_closed_witness :
  exists a, setup_py env_readme_only = Py.Ok a
            /\ python_allowed a [4] = true
            /\ python_allowed a [3] = false.
Proof.
  eexists. split; [ reflexivity | ].
  destruct (python_requires_upward_closed env_readme_only _ eq_refl)
    as [Hiff _].
  split; [ apply Hiff; discriminate | reflexivity ].
Defined.

(** X9: the classifiers and [python_requires] agree: every Python version
    that a classifier names with a minor number is accepted by
    [python_requires]. *)
Theorem classified_pythons_are_allowed
        (e : env) (a : setup_args) (v : list nat) :
  setup_py e = Py.Ok a ->
  In v (Packaging.classified_pythons (classifiers a)) ->
  2 <= List.length v ->
  python_allowed a v = true.
Proof.
  intros H Hin Hlen. manifest H.
  change (Packaging.classified_pythons _)
    with [[3]; [3; 9]; [3; 10]; [3; 11]; [3; 12]] in Hin.
  cbn [In] in Hin.
  destruct Hin as [<- | Hin]; [ cbn in Hlen; lia | ].
  repeat (destruct Hin as [<- | Hin]; [ reflexivity | ]).
  contradiction.
Qed.

Lemma classified_pythons_are_allowed_witness :
  exists a, setup_py env_readme_only = Py.Ok a
            /\ python_allowed a [3; 12] = true.
Proof.
  eexists. split; [ reflexivity | ].
  apply (classified_pythons_are_allowed env_readme_only _ [3; 12] eq_refl).
  - vm_compute. auto 6.
  - cbn. lia.
Defined.

(** ** No package is declared twice *)

Lemma candidates_as_paths (n : FS.node) :
  forall rel,
    Setuptools.candidates rel n
    = map (fun comps => Setuptools.dotted (rel ++ comps)) (walk_paths n).
Proof.
  induction n as [n Hleaf | es IH] using node_rect_entries; intros rel.
  - leaf_node n Hleaf; reflexivity.
  - cbn [Setuptools.candidates walk_paths]. rewrite map_app, map_map.
    f_equal.
    induction es as [| [d c] rest IHrest]; [ reflexivity | ].
    inversion IH as [| ? ? Hc Hrest]; subst.
    cbn [flat_map]. rewrite map_app, (IHrest Hrest). f_equal.
    destruct (Setuptools.keeps (d, c)); [ | reflexivity ].
    cbn [fst snd] in *. rewrite Hc, map_map.
    apply map_ext. intros comps. now rewrite <- app_assoc.
Qed.

Lemma walk_paths_shape (n : FS.node) :
  forall comps,
    In comps (walk_paths n) ->
    comps <> [] /\ Forall (fun c => Str.mem "." c = false) comps.
Proof.
  induction n as [n Hleaf | es IH] using node_rect_entries;
    intros comps Hin.
  - leaf_node n Hleaf; contradiction.
  - cbn [walk_paths] in Hin. apply in_app_or in Hin as [Hin | Hin].
    + apply in_map_iff in Hin as ([d c] & <- & Hin).
      apply filter_In in Hin as [_ Hk]. apply andb_prop in Hk as [Hdot _].
      split; [ discriminate | ].
      constructor; [ now apply negb_true_iff | constructor ].
    + apply in_flat_map in Hin as ([d c] & Hin & Hp).
      destruct (Setuptools.keeps (d, c)) eqn:Hk; [ | contradiction ].
      apply andb_prop in Hk as [Hdot _].
      apply in_map_iff in Hp as (tail & <- & Htail).
      rewrite Forall_forall in IH. destruct (IH _ Hin _ Htail) as [_ Hall].
      split; [ discriminate | ].
      constructor; [ now apply negb_true_iff | exact Hall ].
Qed.

Lemma In_assoc_some (k : string) (c : FS.node)
                    (es : list (string * FS.node)) :
  In (k, c) es -> FS.assoc k es <> None.
Proof.
  induction es as [| [k' c'] rest IH]; cbn; [ contradiction | ].
  intros [[= -> ->] | Hin].
  - rewrite String.eqb_refl. discriminate.
  - destruct (String.eqb k' k); [ discriminate | auto ].
Qed.

Lemma NoDup_map_injective_on {A B : Type} (f : A -> B) (l : list A) :
  (forall x y, In x l -> In y l -> f x = f y -> x = y) ->
  NoDup l -> NoDup (map f l).
Proof.
  intros Hinj Hnd. induction Hnd as [| x l Hx Hnd IH]; cbn; constructor.
  - intros Hin. apply in_map_iff in Hin as (y & Heq & Hy).
    assert (y = x) by (apply Hinj; [ now right | now left | exact Heq ]).
    now subst.
  - apply IH. intros y z Hy Hz. apply Hinj; now right.
Qed.

Lemma walk_paths_NoDup (n : FS.node) :
  FS.wf n = true -> NoDup (walk_paths n).
Proof.
  induction n as [n Hleaf | es IH] using node_rect_entries; intros Hwf.
  - leaf_node n Hleaf; constructor.
  - apply wf_Dir in Hwf as [Hd Hall]. cbn [walk_paths].
    apply NoDup_app.
    + clear IH Hall.
      induction es as [| [d c] rest IHrest]; [ constructor | ].
      cbn [FS.names_distinct] in Hd.
      destruct (FS.assoc d rest) eqn:Hrest; [ discriminate | ].
      cbn [filter]. destruct (Setuptools.keeps (d, c)); [ | auto ].
      cbn [map fst]. constructor; [ | auto ].
      intros Hin. apply in_map_iff in Hin as ([d' c'] & [= ->] & Hin).
      apply filter_In in Hin as [Hin _].
      now apply In_assoc_some in Hin.
    + induction es as [| [d c] rest IHrest]; [ constructor | ].
      inversion IH as [| ? ? Hc Hrest]; subst.
      cbn [FS.names_distinct] in Hd.
      destruct (FS.assoc d rest) eqn:Hassoc; [ discriminate | ].
      cbn [flat_map]. apply NoDup_app.
      * destruct (Setuptools.keeps (d, c)); [ | constructor ].
        cbn [fst snd] in *.
        apply NoDup_map_injective_on.
        -- intros x y _ _ [= ->]. reflexivity.
        -- apply Hc. apply (Hall (d, c)). now left.
      * apply IHrest; [ exact Hrest | exact Hd | ].
        intros entry Hentry. apply Hall. now right.
      * intros comps Hin Hin'.
        destruct (Setuptools.keeps (d, c)); [ | contradiction ].
        apply in_map_iff in Hin as (tail & <- & _).
        apply in_flat_map in Hin' as ([d' c'] & Hentry & Hin').
        destruct (Setuptools.keeps (d', c')); [ | contradiction ].
        apply in_map_iff in Hin' as (tail' & [= -> _] & _).
        now apply In_assoc_some in Hentry.
    + intros comps Hin Hin'.
      apply in_map_iff in Hin as ([d c] & <- & _).
      apply in_flat_map in Hin' as ([d' c'] & Hentry & Hin').
      destruct (Setuptools.keeps (d', c')); [ | contradiction ].
      apply in_map_iff in Hin' as (tail & [= -> ->] & Htail).
      now destruct (walk_paths_shape _ _ Htail) as [Hne _].
Qed.

(** X10: in a build tree where no directory lists a name twice, the
    manifest declares no package twice. *)
Theorem packages_have_no_duplicates (e : env) (a : setup_args) :
  FS.wf (cwd e) = true ->
  setup_py e = Py.Ok a ->
  NoDup (packages a).
Proof.
  intros Hwf H. manifest H. cbn [packages].
  rewrite (find_packages_Ok _ _ _ Hfound). apply NoDup_filter.
  unfold Setuptools.find_candidates.
  destruct (FS.lookup (cwd e) ["python"]) as [n |] eqn:Hn; [ | constructor ].
  rewrite candidates_as_paths.
  apply NoDup_map_injective_on.
  - intros x y Hx Hy Heq. cbn [app] in Heq.
    destruct (walk_paths_shape _ _ Hx) as [Hxne Hxdot].
    destruct (walk_paths_shape _ _ Hy) as [Hyne Hydot].
    rewrite <- (split_dotted x Hxne Hxdot), <- (split_dotted y Hyne Hydot).
    now rewrite Heq.
  - apply walk_paths_NoDup. exact (wf_lookup _ _ _ Hwf Hn).
Qed.

Lemma packages_have_no_duplicates_witness :
  exists a, setup_py env_with_package = Py.Ok a
            /\ packages a
               = ["api_doc_gen_python"; "api_doc_gen_python.parsers"]
            /\ NoDup (packages a).
Proof.
  eexists. split; [ reflexivity | split; [ reflexivity | ] ].
  apply (packages_have_no_duplicates env_with_package); reflexivity.
Defined.
